(** * Provider adapters of langchainjs: the AI21 LLM and the OpenAI moderation chain

    A shallow embedding of

    - [langchain/src/llms/ai21.ts] (class [AI21]),
    - [langchain/src/chains/openai_moderation.ts] (class [OpenAIModerationChain]) and
    - the file loader [loadFromFile],

    followed by the properties the specification states about them and by
    further properties read off the code.

    JavaScript numbers are rationals ([Q]); nothing below computes with them
    beyond comparing with zero.  Methods are written in a state-and-exception
    monad whose state holds the receiver ([this]) and the outside world (the
    process environment, the network and the log of requests sent to it). *)

From Stdlib Require Import QArith.
From stdpp Require Import gmap strings list pretty.

Close Scope Q_scope.
Set Warnings "-register-all".

(** ** JavaScript values *)

(** What [response.json()] can produce, plus [undefined], which reading an
    absent property yields. *)
Inductive Value : Type :=
  | VUndefined
  | VNull
  | VBool (b : bool)
  | VNum (q : Q)
  | VStr (s : string)
  | VArr (l : list Value)
  | VObj (m : gmap string Value).

(** [ToBoolean]: what [!v], [v && _] and [v ? _ : _] test. *)
Definition truthy (v : Value) : bool :=
  match v with
  | VUndefined | VNull => false
  | VBool b => b
  | VNum q => negb (Qeq_bool q 0)
  | VStr s => negb (String.eqb s EmptyString)
  | VArr _ | VObj _ => true
  end.

(** The left operand of [??] is replaced when it is [null] or [undefined]. *)
Definition nullish (v : Value) : bool :=
  match v with
  | VUndefined | VNull => true
  | _ => false
  end.

(** [a ?? b] on optional fields: [None] is [undefined]. *)
Definition coalesce {A : Type} (a b : option A) : option A :=
  match a with
  | Some x => Some x
  | None => b
  end.

Infix "??" := coalesce (at level 45, left associativity).

(** An optional string is falsy when it is [undefined] or empty. *)
Definition truthy_string (o : option string) : bool :=
  match o with
  | Some s => negb (String.eqb s EmptyString)
  | None => false
  end.

Definition of_nat (n : nat) : Value := VNum (inject_Z (Z.of_nat n)).

(** [v === 0]. *)
Definition strict_eq_zero (v : Value) : bool :=
  match v with
  | VNum q => Qeq_bool q 0
  | _ => false
  end.

Definition double_quote : string := String (Ascii.ascii_of_nat 34) EmptyString.

(** ** Requests and responses *)

(** Type definition for AI21 penalty data. *)
Record AI21PenaltyData : Type := {
  scale : Q;
  applyToWhitespaces : bool;
  applyToPunctuations : bool;
  applyToNumbers : bool;
  applyToStopwords : bool;
  applyToEmojis : bool
}.

(** The object the getter [defaultParams] returns. *)
Module Params.
Record t : Type := {
  temperature : Q;
  maxTokens : Q;
  minTokens : Q;
  topP : Q;
  presencePenalty : AI21PenaltyData;
  countPenalty : AI21PenaltyData;
  frequencyPenalty : AI21PenaltyData;
  numResults : Q;
  logitBias : option (gmap string Q)
}.
End Params.

(** [{ prompt, stopSequences: stop, ...this.defaultParams }]: the spread adds
    the keys of [defaultParams], none of which is [prompt] or [stopSequences]. *)
Record CompletionData : Type := {
  prompt : string;
  stopSequences : list string;
  params : Params.t
}.

(** An [AbortSignal] is only passed along. *)
Definition AbortSignal : Type := nat.

(** The arguments of [fetch(url, init)].  [body] is the object handed to
    [JSON.stringify]; the serialisation itself is left to the runtime. *)
Record Request : Type := {
  url : string;
  method : string;
  headers : gmap string string;
  body : CompletionData;
  signal : option AbortSignal
}.

(** A fetch [Response]: [json] is [None] when the body does not parse. *)
Record Response : Type := {
  ok : bool;
  status : N;
  json : option Value
}.

(** ** Exceptions *)

(** [Error message response] is [new Error(message)], with [response] the
    property of that name when one was attached.  The other constructors are
    thrown by the runtime. *)
Inductive Thrown : Type :=
  | Error (message : string) (response : option Response)
  | TypeError (message : string)
  | SyntaxError (message : string)
  | AbortError.

Inductive Outcome (A : Type) : Type :=
  | Returned (a : A)
  | Threw (e : Thrown).

Arguments Returned {A} a.
Arguments Threw {A} e.

Inductive FetchOutcome : Type :=
  | Responded (r : Response)
  | Rejected (e : Thrown).

(** ** The world and the method monad *)

(** [outbound] lists the requests sent so far, the latest first. *)
Record World : Type := {
  env : gmap string string;
  respond : Request -> FetchOutcome;
  outbound : list Request
}.

Definition Eff (S A : Type) : Type := S -> Outcome A * S.

#[global] Instance eff_ret {S} : MRet (Eff S) :=
  fun A (a : A) s => (Returned a, s).

#[global] Instance eff_bind {S} : MBind (Eff S) :=
  fun A B (k : A -> Eff S B) (c : Eff S A) s =>
    match c s with
    | (Returned a, s') => k a s'
    | (Threw e, s') => (Threw e, s')
    end.

Definition throw {S A} (e : Thrown) : Eff S A := fun s => (Threw e, s).

Definition gets {S A} (f : S -> A) : Eff S A := fun s => (Returned (f s), s).

(** A method of a class [T] runs on its receiver and the world. *)
Definition Method (T A : Type) : Type := Eff (T * World) A.

Definition this {T} : Method T T := gets fst.

Definition in_world {T A} (c : Eff World A) : Method T A :=
  fun '(self, w) => let '(r, w') := c w in (r, (self, w')).

(** Modelled from the spec: [getEnvironmentVariable] of [util/env.js], the
    "environment lookup" capability: the value of the variable in the process
    environment, [undefined] when it is not set. *)
Definition getEnvironmentVariable (name : string) : Eff World (option string) :=
  gets (fun w => env w !! name).

(** The global [fetch]: the request goes out and the network answers. *)
Definition fetch (req : Request) : Eff World Response :=
  fun w =>
    let w' := {| env := env w; respond := respond w; outbound := req :: outbound w |} in
    match respond w req with
    | Responded r => (Returned r, w')
    | Rejected e => (Threw e, w')
    end.

(** Modelled from the spec: [AsyncCaller.callWithOptions] of
    [util/async_caller.js], the shared caller, "a single pass-through with no
    backoff policy": it runs the callback once and hands on what it returns
    or throws. *)
Definition callWithOptions {S A} (options : option AbortSignal)
    (callback : Eff S A) : Eff S A :=
  callback.

(** ** Reading properties *)

Definition cannot_read : Thrown :=
  TypeError "Cannot read properties of undefined or null".

(** [v.name] for a [name] that is neither an index nor a member of a built-in
    prototype other than [length]. *)
Definition get {S} (v : Value) (name : string) : Eff S Value :=
  match v with
  | VUndefined | VNull => throw cannot_read
  | VBool _ | VNum _ => mret VUndefined
  | VStr s => mret (if String.eqb name "length" then of_nat (String.length s) else VUndefined)
  | VArr l => mret (if String.eqb name "length" then of_nat (length l) else VUndefined)
  | VObj m => mret (default VUndefined (m !! name))
  end.

(** [v[i]]. *)
Definition get_index {S} (v : Value) (i : nat) : Eff S Value :=
  match v with
  | VUndefined | VNull => throw cannot_read
  | VBool _ | VNum _ => mret VUndefined
  | VStr s =>
      mret (match String.get i s with
            | Some c => VStr (String c EmptyString)
            | None => VUndefined
            end)
  | VArr l => mret (default VUndefined (l !! i))
  | VObj m => mret (default VUndefined (m !! pretty i))
  end.

(** ** [llms/ai21.ts] *)

(** Interface for AI21 input parameters; every field is optional.  The
    fields inherited from [BaseLLMParams] configure the base class only. *)
Module AI21Input.
Record t : Type := {
  ai21ApiKey : option string;
  model : option string;
  temperature : option Q;
  minTokens : option Q;
  maxTokens : option Q;
  topP : option Q;
  presencePenalty : option AI21PenaltyData;
  countPenalty : option AI21PenaltyData;
  frequencyPenalty : option AI21PenaltyData;
  numResults : option Q;
  logitBias : option (gmap string Q);
  stop : option (list string);
  baseUrl : option string
}.

(** The object literal [{}]. *)
Definition empty : t :=
  {| ai21ApiKey := None; model := None; temperature := None;
     minTokens := None; maxTokens := None; topP := None;
     presencePenalty := None; countPenalty := None;
     frequencyPenalty := None; numResults := None; logitBias := None;
     stop := None; baseUrl := None |}.
End AI21Input.

(** What [_call] reads of [this["ParsedCallOptions"]]. *)
Module CallOptions.
Record t : Type := {
  stop : option (list string);
  signal : option AbortSignal
}.
End CallOptions.

Module AI21.

(** The fields of an instance. *)
Record t : Type := {
  model : string;
  temperature : Q;
  maxTokens : Q;
  minTokens : Q;
  topP : Q;
  presencePenalty : AI21PenaltyData;
  countPenalty : AI21PenaltyData;
  frequencyPenalty : AI21PenaltyData;
  numResults : Q;
  logitBias : option (gmap string Q);
  ai21ApiKey : option string;
  stop : option (list string);
  baseUrl : option string
}.

(** Static method to get the default penalty data for AI21. *)
Definition getDefaultAI21PenaltyData : AI21PenaltyData :=
  {| scale := 0;
     applyToWhitespaces := true;
     applyToPunctuations := true;
     applyToNumbers := true;
     applyToStopwords := true;
     applyToEmojis := true |}.

(** The instance as the field initialisers leave it. *)
Definition initial : t :=
  {| model := "j2-jumbo-instruct";
     temperature := 0.7;
     maxTokens := 1024;
     minTokens := 0;
     topP := 1;
     presencePenalty := getDefaultAI21PenaltyData;
     countPenalty := getDefaultAI21PenaltyData;
     frequencyPenalty := getDefaultAI21PenaltyData;
     numResults := 1;
     logitBias := None;
     ai21ApiKey := None;
     stop := None;
     baseUrl := None |}.

(** [new AI21(fields)].  [fields?.x ?? this.x] keeps the initial value of
    [x] when [fields] or its [x] is undefined; the environment is read only
    when no key was passed.  [super(fields ?? {})] sets up the base class
    (callbacks, the caller), none of which is a field below. *)
Definition constructor (fields : option AI21Input.t) : Eff World t :=
  let self := initial in
  key ← match fields ≫= AI21Input.ai21ApiKey with
        | Some k => mret (Some k)
        | None => getEnvironmentVariable "AI21_API_KEY"
        end;
  mret
    {| model := default (model self) (fields ≫= AI21Input.model);
       temperature := default (temperature self) (fields ≫= AI21Input.temperature);
       maxTokens := default (maxTokens self) (fields ≫= AI21Input.maxTokens);
       minTokens := default (minTokens self) (fields ≫= AI21Input.minTokens);
       topP := default (topP self) (fields ≫= AI21Input.topP);
       presencePenalty :=
         default (presencePenalty self) (fields ≫= AI21Input.presencePenalty);
       countPenalty :=
         default (countPenalty self) (fields ≫= AI21Input.countPenalty);
       frequencyPenalty :=
         default (frequencyPenalty self) (fields ≫= AI21Input.frequencyPenalty);
       numResults := default (numResults self) (fields ≫= AI21Input.numResults);
       logitBias := fields ≫= AI21Input.logitBias;
       ai21ApiKey := key;
       stop := fields ≫= AI21Input.stop;
       baseUrl := fields ≫= AI21Input.baseUrl |}.

Definition no_key_message : string :=
  "No AI21 API key found. Please set it as " +:+ double_quote +:+ "AI21_API_KEY"
    +:+ double_quote +:+ " in your environment variables.".

(** Method to validate the environment. It checks if the AI21 API key is
    set. If not, it throws an error. *)
Definition validateEnvironment : Method t unit :=
  self ← this;
  if negb (truthy_string (ai21ApiKey self))
  then throw (Error no_key_message None)
  else mret ().

(** Get the type of LLM. *)
Definition _llmType : string := "ai21".

(** Get the default parameters for calling AI21 API. *)
Definition defaultParams : Method t Params.t :=
  self ← this;
  mret
    {| Params.temperature := temperature self;
       Params.maxTokens := maxTokens self;
       Params.minTokens := minTokens self;
       Params.topP := topP self;
       Params.presencePenalty := presencePenalty self;
       Params.countPenalty := countPenalty self;
       Params.frequencyPenalty := frequencyPenalty self;
       Params.numResults := numResults self;
       Params.logitBias := logitBias self |}.

(** Get the identifying parameters for this LLM. *)
Definition identifyingParams : Method t (Params.t * string) :=
  p ← defaultParams;
  self ← this;
  mret (p, model self).

Definition stop_conflict_message : string :=
  "`stop` found in both the input and default params.".

Definition experimental_endpoint : string :=
  "https://api.ai21.com/studio/v1/experimental".

Definition standard_endpoint : string := "https://api.ai21.com/studio/v1".

Definition no_completions_message : string :=
  "No completions found in response".

(** [`AI21 call failed with status code ${response.status}`] *)
Definition status_message (response : Response) : string :=
  "AI21 call failed with status code " +:+ pretty (status response).

(** [this.stop && stop && this.stop.length > 0 && stop.length > 0]: an
    array is truthy, an undefined list is not. *)
Definition stop_in_both (static call : option (list string)) : bool :=
  match static, call with
  | Some s, Some c => (0 <? length s) && (0 <? length c)
  | _, _ => false
  end.

(** [this.baseUrl ?? this.model === "j1-grande-instruct" ? .. : ..].
    [??] binds tighter than the conditional operator and looser than [===],
    so the condition of the conditional is
    [this.baseUrl ?? (this.model === "j1-grande-instruct")]. *)
Definition chooseBaseUrl (self : t) : string :=
  let condition :=
    default (VBool (String.eqb (model self) "j1-grande-instruct"))
            (VStr <$> baseUrl self) in
  if truthy condition then experimental_endpoint else standard_endpoint.

(** The callback handed to the caller: one [fetch], then the status check. *)
Definition request (req : Request) : Method t Value :=
  response ← in_world (fetch req);
  if negb (ok response)
  then throw (Error (status_message response) (Some response))
  else match json response with
       | Some v => mret v
       | None => throw (SyntaxError "Unexpected token in JSON")
       end.

(** Call out to AI21's complete endpoint. *)
Definition _call (prompt : string) (options : CallOptions.t) : Method t Value :=
  let stop0 := CallOptions.stop options in
  validateEnvironment;;
  self ← this;
  (if stop_in_both (stop self) stop0
   then throw (Error stop_conflict_message None)
   else mret ());;
  let stop1 := default [] (stop self ?? stop0) in
  let baseUrl := chooseBaseUrl self in
  let url := baseUrl +:+ "/" +:+ model self +:+ "/complete" in
  let headers : gmap string string :=
    {[ "Authorization" := "Bearer " +:+ default "undefined" (ai21ApiKey self);
       "Content-Type" := "application/json" ]} in
  p ← defaultParams;
  let data := {| prompt := prompt; stopSequences := stop1; params := p |} in
  responseData ← callWithOptions None
    (request {| url := url; method := "POST"; headers := headers;
                body := data; signal := CallOptions.signal options |});
  completions ← get responseData "completions";
  none ← (if negb (truthy completions) then mret true
          else
            len ← get completions "length";
            if strict_eq_zero len then mret true
            else
              first ← get_index completions 0;
              d ← get first "data";
              mret (negb (truthy d)));
  if none : bool
  then throw (Error no_completions_message None)
  else
    first ← get_index completions 0;
    d ← get first "data";
    text ← get d "text";
    mret (if nullish text then VStr EmptyString else text).

End AI21.

(** ** Promises *)

(** What a promise is rejected with, or a [throw] raises, when the code at
    hand does not choose it: an error object or any other value. *)
Inductive Reason : Type :=
  | AnError (e : Thrown)
  | AValue (v : Value).

(** How a promise settles. *)
Inductive Settled (A : Type) : Type :=
  | Fulfilled (a : A)
  | RejectedWith (r : Reason).

Arguments Fulfilled {A} a.
Arguments RejectedWith {A} r.

(** ** [chains/openai_moderation.ts] *)

(** The fields the constructor reads.  [configuration] is the [ClientOptions]
    object of the OpenAI client; the inherited [ChainInputs] and
    [AsyncCallerParams] configure the base class and the caller only. *)
Module OpenAIModerationChainInput.
Record t : Type := {
  openAIApiKey : option string;
  openAIOrganization : option string;
  throwError : option bool;
  configuration : option (gmap string Value)
}.

Definition empty : t :=
  {| openAIApiKey := None; openAIOrganization := None; throwError := None;
     configuration := None |}.
End OpenAIModerationChainInput.

(** The verdict [_moderate] receives ([OpenAI.Moderation]). *)
Module Moderation.
Record t : Type := {
  flagged : bool;
  categories : gmap string bool;
  category_scores : gmap string Q
}.
End Moderation.

(** What the moderation endpoint answers ([OpenAI.ModerationCreateResponse]). *)
Module ModerationCreateResponse.
Record t : Type := {
  id : string;
  model : string;
  results : list Moderation.t
}.
End ModerationCreateResponse.

Module OpenAIModerationChain.

(** The fields of an instance; [client] is the OpenAI client, which keeps
    the configuration it was built from. *)
Record t : Type := {
  inputKey : string;
  outputKey : string;
  openAIApiKey : option string;
  openAIOrganization : option string;
  clientConfig : gmap string Value;
  client : gmap string Value;
  throwError : bool
}.

Definition no_key_message : string := "OpenAI API key not found".

Definition of_option (o : option string) : Value :=
  match o with
  | Some s => VStr s
  | None => VUndefined
  end.

(** [{ ...source, <rest> }] read backwards: the spread source is copied
    over what the literal holds so far. *)
Definition spread (source object : gmap string Value) : gmap string Value :=
  source ∪ object.

(** [new OpenAIModerationChain(fields)] *)
Definition constructor (fields : option OpenAIModerationChainInput.t) : Eff World t :=
  let throwError0 := default false (fields ≫= OpenAIModerationChainInput.throwError) in
  key ← match fields ≫= OpenAIModerationChainInput.openAIApiKey with
        | Some k => mret (Some k)
        | None => getEnvironmentVariable "OPENAI_API_KEY"
        end;
  if negb (truthy_string key)
  then throw (Error no_key_message None)
  else
    let organization := fields ≫= OpenAIModerationChainInput.openAIOrganization in
    let configuration :=
      default ∅ (fields ≫= OpenAIModerationChainInput.configuration) in
    let config :=
      spread configuration
        (<["organization" := of_option organization]>
           (<["apiKey" := of_option key]> (spread configuration ∅))) in
    mret
      {| inputKey := "input";
         outputKey := "output";
         openAIApiKey := key;
         openAIOrganization := organization;
         clientConfig := config;
         client := config;
         throwError := throwError0 |}.

Definition errorStr : string :=
  "Text was found that violates OpenAI's content policy.".

Definition _moderate (text : string) (results : Moderation.t) : Method t string :=
  if Moderation.flagged results
  then
    self ← this;
    if throwError self
    then throw (Error errorStr None)
    else mret errorStr
  else mret text.

Definition _chainType : string := "moderation_chain".

Definition inputKeys : Method t (list string) :=
  self ← this; mret [inputKey self].

Definition outputKeys : Method t (list string) :=
  self ← this; mret [outputKey self].

(** The environment variable each secret field is read from. *)
Definition lc_secrets : gmap string string :=
  {[ "openAIApiKey" := "OPENAI_API_KEY" ]}.

(** [_moderate] as [_call] applies it: there [text] is whatever [values]
    holds under the input key, a string or not. *)
Definition moderate (text : Value) (results : Moderation.t) : Method t Value :=
  if Moderation.flagged results
  then
    self ← this;
    if throwError self
    then throw (Error errorStr None)
    else mret (VStr errorStr)
  else mret text.

Section Call.

(** The OpenAI client: [create config request] is how the promise of
    [client.moderations.create(request)] settles, for a client built from
    [config]. *)
Variable create :
  gmap string Value → gmap string Value → Settled ModerationCreateResponse.t.

(** The runtime's conversion to a string of a value that is neither a string
    nor [undefined]. *)
Variable render : Value → string.

(** The message of [new Error(error as string)]: the cast changes nothing,
    the constructor converts what it is given, and an undefined argument
    leaves the message empty. *)
Definition message_of (error : Value) : string :=
  match error with
  | VStr s => s
  | VUndefined => EmptyString
  | _ => render error
  end.

(** Modelled from the spec: [AsyncCaller.call] of [util/async_caller.js], the
    shared caller, "a single pass-through with no backoff policy": the promise
    of the callback is the promise of the call. *)
Definition caller_call {A} (callback : Settled A) : Settled A := callback.

(** [_call(values)]: the [try] covers the request only, and its [catch]
    rethrows an error object and wraps anything else. *)
Definition _call (values : gmap string Value) : Method t (gmap string Value) :=
  self ← this;
  let text := default VUndefined (values !! inputKey self) in
  let moderationRequest : gmap string Value := {[ "input" := text ]} in
  moderation ← match caller_call (create (client self) moderationRequest) with
               | Fulfilled m => mret m
               | RejectedWith (AnError error) => throw error
               | RejectedWith (AValue error) => throw (Error (message_of error) None)
               end;
  output ← match ModerationCreateResponse.results moderation !! 0 with
           | Some first => moderate text first
           | None => throw cannot_read
           end;
  self' ← this;
  mret ({[ outputKey self' := output ]} : gmap string Value).

End Call.

End OpenAIModerationChain.

(** ** [loadFromFile] *)

Module Load.

(** The host of the script: [import_fs] is why importing
    [node:fs/promises] fails, when it does; [readFile] answers
    [fs.readFile(uri, { encoding: "utf-8" })] with the text of the file or the
    reason of the rejection; [console] lists what [console.error] was given,
    the latest first. *)
Record Host : Type := {
  import_fs : option Reason;
  readFile : string → Reason + string;
  console : list Reason
}.

Definition console_error (e : Reason) (h : Host) : Host :=
  {| import_fs := import_fs h; readFile := readFile h; console := e :: console h |}.

(** How calling a loader ends: it throws before it has returned a promise,
    or it returns one. *)
Inductive Called (A : Type) : Type :=
  | Throws (r : Reason)
  | Promised (p : Settled A).

Arguments Throws {A} r.
Arguments Promised {A} p.

(** [FileLoader<T>]: text, file path and values to a promise. *)
Definition FileLoader (T : Type) : Type :=
  string → string → gmap string Value → Called T.

(** [`Could not load file at ${uri}`] *)
Definition could_not_load (uri : string) : string :=
  "Could not load file at " +:+ uri.

(** [loadFromFile(uri, loader, values = {})].  The loader is called inside
    the [try] and its promise is returned without [await]: the [catch] sees
    what the import, the read and the call throw, not how the returned promise
    settles. *)
Definition loadFromFile {T} (uri : string) (loader : FileLoader T)
    (values : option (gmap string Value)) (h : Host) : Settled T * Host :=
  let values0 := default ∅ values in
  let caught (e : Reason) : Settled T * Host :=
    (RejectedWith (AnError (Error (could_not_load uri) None)), console_error e h) in
  match import_fs h with
  | Some e => caught e
  | None =>
      match readFile h uri with
      | inl e => caught e
      | inr text =>
          match loader text uri values0 with
          | Throws e => caught e
          | Promised p => (p, h)
          end
      end
  end.

End Load.

(** ** Vocabulary of the specification *)

(** The error kinds of the specification, told apart by what the code throws
    for each. *)
Definition MissingCredential (e : Thrown) : Prop :=
  e = Error AI21.no_key_message None ∨
  e = Error OpenAIModerationChain.no_key_message None.

Definition ConflictingParameter (e : Thrown) : Prop :=
  e = Error AI21.stop_conflict_message None.

Definition EmptyResult (e : Thrown) : Prop :=
  e = Error AI21.no_completions_message None.



(** The request [_call] hands to [fetch]. *)
Definition requestOf (self : AI21.t) (prompt : string) (options : CallOptions.t) : Request :=
  {| url := AI21.chooseBaseUrl self +:+ "/" +:+ AI21.model self +:+ "/complete";
     method := "POST";
     headers :=
       {[ "Authorization" := "Bearer " +:+ default "undefined" (AI21.ai21ApiKey self);
          "Content-Type" := "application/json" ]};
     body :=
       {| prompt := prompt;
          stopSequences := default [] (AI21.stop self ?? CallOptions.stop options);
          params :=
            {| Params.temperature := AI21.temperature self;
               Params.maxTokens := AI21.maxTokens self;
               Params.minTokens := AI21.minTokens self;
               Params.topP := AI21.topP self;
               Params.presencePenalty := AI21.presencePenalty self;
               Params.countPenalty := AI21.countPenalty self;
               Params.frequencyPenalty := AI21.frequencyPenalty self;
               Params.numResults := AI21.numResults self;
               Params.logitBias := AI21.logitBias self |} |};
     signal := CallOptions.signal options |}.

(** The world once [req] has gone out. *)
Definition sent (req : Request) (w : World) : World :=
  {| env := env w; respond := respond w; outbound := req :: outbound w |}.

(** What [_call] does with the parsed envelope, once the caller has returned
    it: the statements after the [await] ([call_run] below ties the two). *)
Definition completionOf {S} (responseData : Value) : Eff S Value :=
  completions ← get responseData "completions";
  none ← (if negb (truthy completions) then mret true
          else
            len ← get completions "length";
            if strict_eq_zero len then mret true
            else
              first ← get_index completions 0;
              d ← get first "data";
              mret (negb (truthy d)));
  if none : bool
  then throw (Error AI21.no_completions_message None)
  else
    first ← get_index completions 0;
    d ← get first "data";
    text ← get d "text";
    mret (if nullish text then VStr EmptyString else text).

(** The call sent one request and the network answered it with [r]. *)
Definition answered (prompt : string) (options : CallOptions.t)
    (self : AI21.t) (w : World) (r : Response) : Prop :=
  ∃ req,
    outbound (AI21._call prompt options (self, w)).2.2 = req :: outbound w ∧
    respond w req = Responded r.

(** The field [name] of a JSON value: only objects have fields, and [null]
    has none. *)
Definition field (v : Value) (name : string) : option Value :=
  match v with
  | VObj m => m !! name
  | _ => None
  end.

(** The envelopes without a usable result: no [completions], an empty
    [completions] array, or a first completion that is not [null] and has no
    [data]. *)
Inductive lacks_completions (envelope : Value) : Prop :=
  | completions_absent :
      field envelope "completions" = None → lacks_completions envelope
  | completions_empty :
      field envelope "completions" = Some (VArr []) → lacks_completions envelope
  | completion_without_data (first : Value) (rest : list Value) :
      field envelope "completions" = Some (VArr (first :: rest)) →
      nullish first = false →
      field first "data" = None →
      lacks_completions envelope.

(** A computation respects a relation on states when every run ends in a
    state related to the one it started in. *)
Definition respects {S A} (R : relation S) (c : Eff S A) : Prop :=
  ∀ s, R s (c s).2.

(** The receiver after is the receiver before. *)
Definition same_this {T} : relation (T * World) := fun s s' => s'.1 = s.1.

(** The state after is the state before. *)
Definition unchanged {S} : relation S := fun s s' => s' = s.

(** ** Worlds and instances used in the examples *)

(** No variable set, nothing sent yet; the network gives [answer] to every
    request. *)
Definition world_answering (answer : FetchOutcome) : World :=
  {| env := ∅; respond := fun _ => answer; outbound := [] |}.

Definition offline : World := world_answering (Rejected (TypeError "fetch failed")).

Definition with_key : AI21Input.t :=
  {| AI21Input.ai21ApiKey := Some "secret"; AI21Input.model := None;
     AI21Input.temperature := None; AI21Input.minTokens := None;
     AI21Input.maxTokens := None; AI21Input.topP := None;
     AI21Input.presencePenalty := None; AI21Input.countPenalty := None;
     AI21Input.frequencyPenalty := None; AI21Input.numResults := None;
     AI21Input.logitBias := None; AI21Input.stop := None;
     AI21Input.baseUrl := None |}.

(** [new AI21({ ai21ApiKey: "secret" })] *)
Definition keyed : AI21.t :=
  {| AI21.model := "j2-jumbo-instruct"; AI21.temperature := 0.7;
     AI21.maxTokens := 1024; AI21.minTokens := 0; AI21.topP := 1;
     AI21.presencePenalty := AI21.getDefaultAI21PenaltyData;
     AI21.countPenalty := AI21.getDefaultAI21PenaltyData;
     AI21.frequencyPenalty := AI21.getDefaultAI21PenaltyData;
     AI21.numResults := 1; AI21.logitBias := None;
     AI21.ai21ApiKey := Some "secret"; AI21.stop := None;
     AI21.baseUrl := None |}.

Definition with_stop (stop : list string) (fields : AI21Input.t) : AI21Input.t :=
  {| AI21Input.ai21ApiKey := AI21Input.ai21ApiKey fields;
     AI21Input.model := AI21Input.model fields;
     AI21Input.temperature := AI21Input.temperature fields;
     AI21Input.minTokens := AI21Input.minTokens fields;
     AI21Input.maxTokens := AI21Input.maxTokens fields;
     AI21Input.topP := AI21Input.topP fields;
     AI21Input.presencePenalty := AI21Input.presencePenalty fields;
     AI21Input.countPenalty := AI21Input.countPenalty fields;
     AI21Input.frequencyPenalty := AI21Input.frequencyPenalty fields;
     AI21Input.numResults := AI21Input.numResults fields;
     AI21Input.logitBias := AI21Input.logitBias fields;
     AI21Input.stop := Some stop;
     AI21Input.baseUrl := AI21Input.baseUrl fields |}.

Definition with_baseUrl (base : string) (fields : AI21Input.t) : AI21Input.t :=
  {| AI21Input.ai21ApiKey := AI21Input.ai21ApiKey fields;
     AI21Input.model := AI21Input.model fields;
     AI21Input.temperature := AI21Input.temperature fields;
     AI21Input.minTokens := AI21Input.minTokens fields;
     AI21Input.maxTokens := AI21Input.maxTokens fields;
     AI21Input.topP := AI21Input.topP fields;
     AI21Input.presencePenalty := AI21Input.presencePenalty fields;
     AI21Input.countPenalty := AI21Input.countPenalty fields;
     AI21Input.frequencyPenalty := AI21Input.frequencyPenalty fields;
     AI21Input.numResults := AI21Input.numResults fields;
     AI21Input.logitBias := AI21Input.logitBias fields;
     AI21Input.stop := AI21Input.stop fields;
     AI21Input.baseUrl := Some base |}.

(** The instance [new AI21(fields)] yields in a world where it returns one
    (it always does, [constructor_returns] below). *)
Definition instance (fields : option AI21Input.t) (w : World) : AI21.t :=
  match (AI21.constructor fields w).1 with
  | Returned self => self
  | Threw _ => AI21.initial
  end.

Definition stopping (stop : option (list string)) : CallOptions.t :=
  {| CallOptions.stop := stop; CallOptions.signal := None |}.

Definition responding (code : N) (okay : bool) (payload : option Value) : FetchOutcome :=
  Responded {| ok := okay; status := code; json := payload |}.

(** [{ completions: [ { data: {} } ] }] *)
Definition textless : Value :=
  VObj {[ "completions" := VArr [VObj {[ "data" := VObj ∅ ]}] ]}.

(** [new OpenAIModerationChain({ openAIApiKey: "sk" })] takes these fields. *)
Definition key_only : OpenAIModerationChainInput.t :=
  {| OpenAIModerationChainInput.openAIApiKey := Some "sk";
     OpenAIModerationChainInput.openAIOrganization := None;
     OpenAIModerationChainInput.throwError := None;
     OpenAIModerationChainInput.configuration := None |}.

(** [new OpenAIModerationChain({ openAIApiKey: "sk", throwError: true })]
    takes these fields. *)
Definition key_and_throw : OpenAIModerationChainInput.t :=
  {| OpenAIModerationChainInput.openAIApiKey := Some "sk";
     OpenAIModerationChainInput.openAIOrganization := None;
     OpenAIModerationChainInput.throwError := Some true;
     OpenAIModerationChainInput.configuration := None |}.

Definition verdict (flag : bool) : Moderation.t :=
  {| Moderation.flagged := flag; Moderation.categories := ∅;
     Moderation.category_scores := ∅ |}.

(** The chain [new OpenAIModerationChain({ openAIApiKey: "sk" })] yields, and
    the same chain with [throwError] set. *)
Definition moderator (throws : bool) : OpenAIModerationChain.t :=
  {| OpenAIModerationChain.inputKey := "input";
     OpenAIModerationChain.outputKey := "output";
     OpenAIModerationChain.openAIApiKey := Some "sk";
     OpenAIModerationChain.openAIOrganization := None;
     OpenAIModerationChain.clientConfig :=
       {[ "apiKey" := VStr "sk"; "organization" := VUndefined ]};
     OpenAIModerationChain.client :=
       {[ "apiKey" := VStr "sk"; "organization" := VUndefined ]};
     OpenAIModerationChain.throwError := throws |}.

(** ** Vocabulary of the further properties *)

(** The call sent [req], and only [req]. *)
Definition sends (prompt : string) (options : CallOptions.t)
    (self : AI21.t) (w : World) (req : Request) : Prop :=
  outbound (AI21._call prompt options (self, w)).2.2 = req :: outbound w.

(** Whether [_call] gets as far as [fetch]. *)
Definition reaches_fetch (self : AI21.t) (options : CallOptions.t) : bool :=
  truthy_string (AI21.ai21ApiKey self) &&
  negb (AI21.stop_in_both (AI21.stop self) (CallOptions.stop options)).

(** The state after a computation. *)
Definition after {S A} (c : Eff S A) (s : S) : S := (c s).2.

(** [new AI21({ ai21ApiKey: key })] takes these fields. *)
Definition with_ai21ApiKey (key : string) (fields : AI21Input.t) : AI21Input.t :=
  {| AI21Input.ai21ApiKey := Some key;
     AI21Input.model := AI21Input.model fields;
     AI21Input.temperature := AI21Input.temperature fields;
     AI21Input.minTokens := AI21Input.minTokens fields;
     AI21Input.maxTokens := AI21Input.maxTokens fields;
     AI21Input.topP := AI21Input.topP fields;
     AI21Input.presencePenalty := AI21Input.presencePenalty fields;
     AI21Input.countPenalty := AI21Input.countPenalty fields;
     AI21Input.frequencyPenalty := AI21Input.frequencyPenalty fields;
     AI21Input.numResults := AI21Input.numResults fields;
     AI21Input.logitBias := AI21Input.logitBias fields;
     AI21Input.stop := AI21Input.stop fields;
     AI21Input.baseUrl := AI21Input.baseUrl fields |}.

(** A world whose environment holds one variable. *)
Definition world_with_env (name value : string) (answer : FetchOutcome) : World :=
  {| env := {[ name := value ]}; respond := fun _ => answer; outbound := [] |}.

(** [{ completions: [ { data: data } ] }] *)
Definition envelope_of (data : Value) : Value :=
  VObj {[ "completions" := VArr [VObj {[ "data" := data ]}] ]}.

(** A client whose moderation endpoint settles every request the same
    way. *)
Definition always (result : Settled ModerationCreateResponse.t) :
    gmap string Value → gmap string Value → Settled ModerationCreateResponse.t :=
  fun _ _ => result.

(** An answer with one verdict per flag. *)
Definition verdicts (flags : list bool) : ModerationCreateResponse.t :=
  {| ModerationCreateResponse.id := "modr-1";
     ModerationCreateResponse.model := "text-moderation-007";
     ModerationCreateResponse.results := verdict <$> flags |}.

(** A conversion to strings for the examples. *)
Definition as_object (v : Value) : string := "[object Object]".

(** [{ input: "hello" }] *)
Definition hello : gmap string Value := {[ "input" := VStr "hello" ]}.

(** What [OpenAIModerationChain._call] throws when the request is rejected
    with [reason]. *)
Definition rethrown (render : Value → string) (reason : Reason) : Thrown :=
  match reason with
  | AnError e => e
  | AValue v => Error (OpenAIModerationChain.message_of render v) None
  end.

(** What the [catch] of [loadFromFile] caught: the import failed, the read
    failed, or the loader threw before returning a promise. *)
Inductive caught {T} (uri : string) (loader : Load.FileLoader T)
    (values : option (gmap string Value)) (h : Load.Host) (e : Reason) : Prop :=
  | import_failed :
      Load.import_fs h = Some e → caught uri loader values h e
  | read_failed :
      Load.import_fs h = None →
      Load.readFile h uri = inl e →
      caught uri loader values h e
  | loader_threw (text : string) :
      Load.import_fs h = None →
      Load.readFile h uri = inr text →
      loader text uri (default ∅ values) = Load.Throws e →
      caught uri loader values h e.

(** A host with one file, and a loader that parses nothing: it rejects an
    empty text and fulfils with the length of any other. *)
Definition one_file (path text : string) : Load.Host :=
  {| Load.import_fs := None;
     Load.readFile := fun uri =>
       if String.eqb uri path then inr text
       else inl (AnError (Error "ENOENT: no such file or directory" None));
     Load.console := [] |}.

Definition length_loader : Load.FileLoader nat :=
  fun text _ _ =>
    Load.Promised
      (if String.eqb text EmptyString
       then RejectedWith (AnError (Error "empty file" None))
       else Fulfilled (String.length text)).

(** The chain [new OpenAIModerationChain(fields)] builds once it has found
    [key]. *)
Definition chain_of (fields : option OpenAIModerationChainInput.t)
    (key : option string) : OpenAIModerationChain.t :=
  {| OpenAIModerationChain.inputKey := "input";
     OpenAIModerationChain.outputKey := "output";
     OpenAIModerationChain.openAIApiKey := key;
     OpenAIModerationChain.openAIOrganization :=
       fields ≫= OpenAIModerationChainInput.openAIOrganization;
     OpenAIModerationChain.clientConfig :=
       OpenAIModerationChain.spread
         (default ∅ (fields ≫= OpenAIModerationChainInput.configuration))
         (<["organization" :=
              OpenAIModerationChain.of_option
                (fields ≫= OpenAIModerationChainInput.openAIOrganization)]>
            (<["apiKey" := OpenAIModerationChain.of_option key]>
               (OpenAIModerationChain.spread
                  (default ∅ (fields ≫= OpenAIModerationChainInput.configuration))
                  ∅)));
     OpenAIModerationChain.client :=
       OpenAIModerationChain.spread
         (default ∅ (fields ≫= OpenAIModerationChainInput.configuration))
         (<["organization" :=
              OpenAIModerationChain.of_option
                (fields ≫= OpenAIModerationChainInput.openAIOrganization)]>
            (<["apiKey" := OpenAIModerationChain.of_option key]>
               (OpenAIModerationChain.spread
                  (default ∅ (fields ≫= OpenAIModerationChainInput.configuration))
                  ∅)));
     OpenAIModerationChain.throwError :=
       default false (fields ≫= OpenAIModerationChainInput.throwError) |}.

(** [new OpenAIModerationChain({ openAIApiKey: "sk", configuration })] takes
    these fields. *)
Definition configured (configuration : gmap string Value) :
    OpenAIModerationChainInput.t :=
  {| OpenAIModerationChainInput.openAIApiKey := Some "sk";
     OpenAIModerationChainInput.openAIOrganization := None;
     OpenAIModerationChainInput.throwError := None;
     OpenAIModerationChainInput.configuration := Some configuration |}.

(** ** Running the monad *)



Lemma bind_run {S A B} (c : Eff S A) (k : A → Eff S B) (s : S) :
  (c ≫= k) s =
  match c s with
  | (Returned a, s') => k a s'
  | (Threw e, s') => (Threw e, s')
  end.
Proof. reflexivity. Qed.

Lemma cons_not_self {A} (x : A) (l : list A) : l ≠ x :: l.
Proof. intros H. apply (f_equal length) in H. simpl in H. lia. Qed.

Section Frame.
Context {S : Type} (R : relation S).
Hypothesis R_refl : ∀ s, R s s.
Hypothesis R_trans : ∀ s1 s2 s3, R s1 s2 → R s2 s3 → R s1 s3.

Lemma respects_ret {A} (a : A) : respects R (mret a).
Proof. intros s. apply R_refl. Qed.

Lemma respects_throw {A} (e : Thrown) : respects R (throw (A := A) e).
Proof. intros s. apply R_refl. Qed.

Lemma respects_gets {A} (f : S → A) : respects R (gets f).
Proof. intros s. apply R_refl. Qed.

Lemma respects_bind {A B} (c : Eff S A) (k : A → Eff S B) :
  respects R c → (∀ a, respects R (k a)) → respects R (c ≫= k).
Proof.
  intros Hc Hk s. unfold mbind, eff_bind.
  specialize (Hc s). destruct (c s) as [[a|e] s']; simpl in *.
  - eapply R_trans; [exact Hc | apply Hk].
  - exact Hc.
Qed.

Lemma respects_get (v : Value) (name : string) : respects R (get v name).
Proof. destruct v; simpl; auto using respects_ret, respects_throw. Qed.

Lemma respects_get_index (v : Value) (i : nat) : respects R (get_index v i).
Proof. destruct v; simpl; auto using respects_ret, respects_throw. Qed.
End Frame.

Lemma in_world_same_this {T A} (c : Eff World A) :
  respects (same_this (T := T)) (in_world c).
Proof. intros [self w]. unfold in_world. now destruct (c w). Qed.

(** Break a computation into its steps; [refl] and [trans] are the proofs
    that the relation is reflexive and transitive. *)
Ltac frame_steps refl trans :=
  repeat first
    [ apply (respects_bind _ trans); [| intros ?]
    | apply (respects_ret _ refl)
    | apply (respects_throw _ refl)
    | apply (respects_gets _ refl)
    | apply (respects_get _ refl)
    | apply (respects_get_index _ refl)
    | apply in_world_same_this
    | match goal with
      | |- respects _ (if ?b then _ else _) => destruct b
      | |- respects _ (match ?o with Some _ => _ | None => _ end) => destruct o
      end ].

Lemma same_this_refl {T} (s : T * World) : same_this s s.
Proof. reflexivity. Qed.

Lemma same_this_trans {T} (s1 s2 s3 : T * World) :
  same_this s1 s2 → same_this s2 s3 → same_this s1 s3.
Proof. unfold same_this. congruence. Qed.

Lemma unchanged_refl {S} (s : S) : unchanged s s.
Proof. reflexivity. Qed.

Lemma unchanged_trans {S} (s1 s2 s3 : S) :
  unchanged s1 s2 → unchanged s2 s3 → unchanged s1 s3.
Proof. unfold unchanged. congruence. Qed.

(** Reading the envelope touches neither the receiver nor the world. *)
Lemma completionOf_stateless {S} (v : Value) (s : S) : (completionOf v s).2 = s.
Proof.
  revert s. change (respects unchanged (completionOf (S := S) v)).
  unfold completionOf. frame_steps (@unchanged_refl S) (@unchanged_trans S).
Qed.

Ltac run :=
  cbv beta iota zeta delta
    [AI21._call AI21.validateEnvironment AI21.defaultParams AI21.request
     AI21.constructor OpenAIModerationChain.constructor
     OpenAIModerationChain._moderate getEnvironmentVariable
     this gets throw in_world fetch callWithOptions
     mbind mret eff_bind eff_ret fst snd requestOf sent completionOf].

(** [_call], step by step. *)
Lemma call_run prompt options self w :
  AI21._call prompt options (self, w) =
  if negb (truthy_string (AI21.ai21ApiKey self))
  then (Threw (Error AI21.no_key_message None), (self, w))
  else if AI21.stop_in_both (AI21.stop self) (CallOptions.stop options)
  then (Threw (Error AI21.stop_conflict_message None), (self, w))
  else
    let req := requestOf self prompt options in
    match respond w req with
    | Rejected e => (Threw e, (self, sent req w))
    | Responded r =>
        if negb (ok r)
        then (Threw (Error (AI21.status_message r) (Some r)), (self, sent req w))
        else match json r with
             | None => (Threw (SyntaxError "Unexpected token in JSON"), (self, sent req w))
             | Some v => completionOf v (self, sent req w)
             end
    end.
Proof.
  run.
  destruct (negb (truthy_string (AI21.ai21ApiKey self))); [reflexivity|].
  destruct (AI21.stop_in_both _ _); [reflexivity|].
  destruct (respond w _) as [r|e]; [|reflexivity].
  destruct (negb (ok r)); [reflexivity|].
  destruct (json r); reflexivity.
Qed.

(** A call that was answered had a key, had no conflicting stop lists, and
    sent exactly [requestOf]. *)
Lemma answered_inv prompt options self w r :
  answered prompt options self w r →
  truthy_string (AI21.ai21ApiKey self) = true ∧
  AI21.stop_in_both (AI21.stop self) (CallOptions.stop options) = false ∧
  respond w (requestOf self prompt options) = Responded r.
Proof.
  intros (req & Hout & Hresp). rewrite call_run in Hout.
  destruct (truthy_string (AI21.ai21ApiKey self)); simpl in Hout;
    [| now apply cons_not_self in Hout].
  destruct (AI21.stop_in_both _ _); simpl in Hout;
    [now apply cons_not_self in Hout |].
  assert (Hreq : req = requestOf self prompt options).
  { destruct (respond w (requestOf self prompt options)) as [r'|e]; simpl in Hout.
    - destruct (negb (ok r')); simpl in Hout; [congruence|].
      destruct (json r'); simpl in Hout; [|congruence].
      rewrite completionOf_stateless in Hout. simpl in Hout. congruence.
    - congruence. }
  subst req. auto.
Qed.

Lemma answered_intro prompt options self w r :
  truthy_string (AI21.ai21ApiKey self) = true →
  AI21.stop_in_both (AI21.stop self) (CallOptions.stop options) = false →
  respond w (requestOf self prompt options) = Responded r →
  answered prompt options self w r.
Proof.
  intros Hkey Hstop Hresp. exists (requestOf self prompt options).
  split; [|exact Hresp].
  rewrite call_run, Hkey, Hstop. simpl. rewrite Hresp.
  destruct (negb (ok r)); [reflexivity|].
  destruct (json r); [|reflexivity].
  now rewrite completionOf_stateless.
Qed.

(** ** Construction *)

(** [new AI21(fields)] never throws and sends nothing. *)
Lemma constructor_returns (fields : option AI21Input.t) (w : World) :
  AI21.constructor fields w = (Returned (instance fields w), w).
Proof.
  unfold instance, AI21.constructor.
  destruct (fields ≫= AI21Input.ai21ApiKey); reflexivity.
Qed.

(** An explicit key is preferred; the environment is the fallback. *)
Lemma constructor_key (fields : option AI21Input.t) (w : World) :
  AI21.ai21ApiKey (instance fields w) =
  (fields ≫= AI21Input.ai21ApiKey) ?? (env w !! "AI21_API_KEY").
Proof.
  unfold instance, AI21.constructor.
  destruct (fields ≫= AI21Input.ai21ApiKey); reflexivity.
Qed.

Lemma constructor_penalties (fields : option AI21Input.t) (w : World) :
  AI21.presencePenalty (instance fields w) =
    default AI21.getDefaultAI21PenaltyData (fields ≫= AI21Input.presencePenalty) ∧
  AI21.countPenalty (instance fields w) =
    default AI21.getDefaultAI21PenaltyData (fields ≫= AI21Input.countPenalty) ∧
  AI21.frequencyPenalty (instance fields w) =
    default AI21.getDefaultAI21PenaltyData (fields ≫= AI21Input.frequencyPenalty).
Proof.
  unfold instance, AI21.constructor.
  destruct (fields ≫= AI21Input.ai21ApiKey); repeat split; reflexivity.
Qed.

Example keyed_is_constructed : instance (Some with_key) offline = keyed.
Proof. reflexivity. Qed.

(** Without a key [_call] stops at [validateEnvironment]. *)
Lemma call_without_key prompt options self w :
  truthy_string (AI21.ai21ApiKey self) = false →
  AI21._call prompt options (self, w) =
  (Threw (Error AI21.no_key_message None), (self, w)).
Proof. intros H. now rewrite call_run, H. Qed.

Lemma no_key_is_not_conflict : ¬ ConflictingParameter (Error AI21.no_key_message None).
Proof. unfold ConflictingParameter. intros H. discriminate H. Qed.

(** C1, as stated, fails: [new AI21()] with no key anywhere returns an
    instance instead of throwing. *)
Lemma ai21_constructs_without_key :
  (None ≫= AI21Input.ai21ApiKey) = None ∧
  env offline !! "AI21_API_KEY" = None ∧
  (AI21.constructor None offline).1 = Returned AI21.initial ∧
  ¬ (∃ e, (AI21.constructor None offline).1 = Threw e ∧ MissingCredential e).
Proof.
  repeat split. intros (e & H & _). discriminate H.
Qed.

(** C1 (amended): with no key passed and none in the environment,
    constructing an [OpenAIModerationChain] throws the missing-key error and
    leaves the world as it was, so nothing is sent; constructing an [AI21]
    returns an instance whose key is undefined, again sending nothing, and
    every [_call] on that instance throws the missing-key error with the world
    still unchanged. *)
Theorem missing_credential :
  (∀ (fields : option OpenAIModerationChainInput.t) (w : World),
     fields ≫= OpenAIModerationChainInput.openAIApiKey = None →
     env w !! "OPENAI_API_KEY" = None →
     ∃ e, MissingCredential e ∧
          OpenAIModerationChain.constructor fields w = (Threw e, w)) ∧
  (∀ (fields : option AI21Input.t) (w : World),
     fields ≫= AI21Input.ai21ApiKey = None →
     env w !! "AI21_API_KEY" = None →
     ∃ self, AI21.constructor fields w = (Returned self, w) ∧
             AI21.ai21ApiKey self = None ∧
             ∀ prompt options,
               ∃ e, MissingCredential e ∧
                    AI21._call prompt options (self, w) = (Threw e, (self, w))).
Proof.
  split.
  - intros fields w Hkey Henv.
    exists (Error OpenAIModerationChain.no_key_message None).
    split; [now right|]. unfold OpenAIModerationChain.constructor.
    rewrite Hkey. run. now rewrite Henv.
  - intros fields w Hkey Henv. exists (instance fields w).
    assert (Hnone : AI21.ai21ApiKey (instance fields w) = None)
      by now rewrite constructor_key, Hkey, Henv.
    split; [apply constructor_returns|]. split; [exact Hnone|].
    intros prompt options. exists (Error AI21.no_key_message None).
    split; [now left|]. apply call_without_key. now rewrite Hnone.
Qed.

Lemma missing_credential_witness :
  (∃ e, MissingCredential e ∧
        OpenAIModerationChain.constructor None offline = (Threw e, offline)) ∧
  (∃ self, AI21.constructor None offline = (Returned self, offline) ∧
           AI21.ai21ApiKey self = None ∧
           ∀ prompt options,
             ∃ e, MissingCredential e ∧
                  AI21._call prompt options (self, offline) = (Threw e, (self, offline))).
Proof.
  split.
  - apply (proj1 missing_credential None offline); reflexivity.
  - apply (proj2 missing_credential None offline); reflexivity.
Defined.

(** ** Stop sequences *)

Lemma stop_in_both_nonempty (static call : list string) :
  static ≠ [] → call ≠ [] → AI21.stop_in_both (Some static) (Some call) = true.
Proof. intros Hs Hc. destruct static, call; try congruence. reflexivity. Qed.

(** The merge [this.stop ?? stop ?? []] when nothing was configured: the
    list of the call, or no stop sequence at all. *)
Lemma merge_static_absent prompt options self :
  AI21.stop self = None →
  stopSequences (body (requestOf self prompt options)) =
  default [] (CallOptions.stop options).
Proof. intros H. simpl. now rewrite H. Qed.

(** A configured list always wins the merge, even an empty one. *)
Lemma merge_static_present prompt options self static :
  AI21.stop self = Some static →
  stopSequences (body (requestOf self prompt options)) = static.
Proof. intros H. simpl. now rewrite H. Qed.

(** C2, as stated, fails: [new AI21({ stop: ["a"] })._call("p", { stop: ["b"] })]
    with no key anywhere has two non-empty lists, yet the error is the missing
    key. *)
Lemma conflict_hidden_by_missing_key :
  AI21.stop (instance (Some (with_stop ["a"] AI21Input.empty)) offline) = Some ["a"] ∧
  CallOptions.stop (stopping (Some ["b"])) = Some ["b"] ∧
  (AI21._call "p" (stopping (Some ["b"]))
     (instance (Some (with_stop ["a"] AI21Input.empty)) offline, offline)).1 =
    Threw (Error AI21.no_key_message None) ∧
  ¬ (∃ e, (AI21._call "p" (stopping (Some ["b"]))
             (instance (Some (with_stop ["a"] AI21Input.empty)) offline, offline)).1 =
            Threw e ∧ ConflictingParameter e).
Proof.
  assert (H : (AI21._call "p" (stopping (Some ["b"]))
     (instance (Some (with_stop ["a"] AI21Input.empty)) offline, offline)).1 =
    Threw (Error AI21.no_key_message None)) by reflexivity.
  split; [reflexivity|]. split; [reflexivity|]. split; [exact H|].
  intros (e & He & Hc). rewrite H in He. injection He as <-.
  now apply no_key_is_not_conflict.
Qed.

(** C2 (amended): on an instance that holds a non-empty key, a call whose
    receiver and options both carry a non-empty stop list throws the
    conflicting-parameter error and leaves the world as it was: no request
    goes out. *)
Theorem conflicting_stop prompt options self w (static call : list string) :
  truthy_string (AI21.ai21ApiKey self) = true →
  AI21.stop self = Some static →
  CallOptions.stop options = Some call →
  static ≠ [] →
  call ≠ [] →
  ∃ e, ConflictingParameter e ∧
       AI21._call prompt options (self, w) = (Threw e, (self, w)).
Proof.
  intros Hkey Hs Hc Hs0 Hc0. exists (Error AI21.stop_conflict_message None).
  split; [reflexivity|].
  rewrite call_run, Hkey, Hs, Hc, stop_in_both_nonempty by assumption.
  reflexivity.
Qed.

Lemma conflicting_stop_witness :
  ∃ e, ConflictingParameter e ∧
       AI21._call "p" (stopping (Some ["b"]))
         (instance (Some (with_stop ["a"] with_key)) offline, offline) =
       (Threw e, (instance (Some (with_stop ["a"] with_key)) offline, offline)).
Proof.
  apply (conflicting_stop "p" (stopping (Some ["b"]))
           (instance (Some (with_stop ["a"] with_key)) offline) offline ["a"] ["b"]);
    [reflexivity | reflexivity | reflexivity | discriminate | discriminate].
Defined.

(** C3: [new AI21({ ai21ApiKey: "secret", stop: [] })._call("p", { stop: ["x"] })]
    passes the conflict check, sends one request, and that request carries
    no stop sequence: the list of the call is dropped. *)
Theorem empty_static_stop_drops_call_stop :
  AI21.stop (instance (Some (with_stop [] with_key)) offline) = Some [] ∧
  AI21.stop_in_both (Some []) (Some ["x"]) = false ∧
  map (fun req => stopSequences (body req))
    (outbound
       (AI21._call "p" (stopping (Some ["x"]))
          (instance (Some (with_stop [] with_key)) offline, offline)).2.2) =
  [ [] ].
Proof. repeat split. Qed.

(** ** The endpoint *)

(** No override: the experimental endpoint for [j1-grande-instruct], the
    standard one for every other model. *)
Lemma chooseBaseUrl_default (self : AI21.t) :
  AI21.baseUrl self = None →
  AI21.chooseBaseUrl self =
  if String.eqb (AI21.model self) "j1-grande-instruct"
  then AI21.experimental_endpoint
  else AI21.standard_endpoint.
Proof. intros H. unfold AI21.chooseBaseUrl. now rewrite H. Qed.

(** An override only selects between the two fixed endpoints. *)
Lemma chooseBaseUrl_override (self : AI21.t) (base : string) :
  AI21.baseUrl self = Some base →
  AI21.chooseBaseUrl self =
  if String.eqb base EmptyString
  then AI21.standard_endpoint
  else AI21.experimental_endpoint.
Proof.
  intros H. unfold AI21.chooseBaseUrl. rewrite H. simpl.
  now destruct (String.eqb base EmptyString).
Qed.

(** C4: [new AI21({ ai21ApiKey: "secret", baseUrl: "https://example.com" })]
    posts to the experimental AI21 endpoint, not to the configured base. *)
Theorem baseUrl_override_is_ignored :
  AI21.baseUrl (instance (Some (with_baseUrl "https://example.com" with_key)) offline) =
    Some "https://example.com" ∧
  map url
    (outbound
       (AI21._call "p" (stopping None)
          (instance (Some (with_baseUrl "https://example.com" with_key)) offline,
           offline)).2.2) =
  [ "https://api.ai21.com/studio/v1/experimental/j2-jumbo-instruct/complete" ].
Proof. split; reflexivity. Qed.

(** ** Responses *)

Lemma get_object {S} (m : gmap string Value) (name : string) (s : S) :
  get (VObj m) name s = (Returned (default VUndefined (m !! name)), s).
Proof. reflexivity. Qed.

Lemma completionOf_absent {S} (m : gmap string Value) (s : S) :
  m !! "completions" = None →
  completionOf (VObj m) s = (Threw (Error AI21.no_completions_message None), s).
Proof. intros H. unfold completionOf. run. now rewrite get_object, H. Qed.

Lemma completionOf_empty {S} (m : gmap string Value) (s : S) :
  m !! "completions" = Some (VArr []) →
  completionOf (VObj m) s = (Threw (Error AI21.no_completions_message None), s).
Proof. intros H. unfold completionOf. run. now rewrite get_object, H. Qed.

(** With a first completion that is an object, the outcome is decided by
    its [data]. *)
Lemma completionOf_first {S} (m first : gmap string Value) (rest : list Value) (s : S) :
  m !! "completions" = Some (VArr (VObj first :: rest)) →
  completionOf (VObj m) s =
  match first !! "data" with
  | None => (Threw (Error AI21.no_completions_message None), s)
  | Some d =>
      if truthy d
      then
        match get d "text" s with
        | (Returned text, _) =>
            (Returned (if nullish text then VStr EmptyString else text), s)
        | (Threw e, _) => (Threw e, s)
        end
      else (Threw (Error AI21.no_completions_message None), s)
  end.
Proof.
  intros H. unfold completionOf. run. rewrite get_object, H. simpl.
  destruct (first !! "data") as [d|]; [|reflexivity]. simpl.
  destruct (truthy d) eqn:Hd; [|reflexivity]. simpl.
  destruct d; try discriminate Hd; reflexivity.
Qed.

(** What an answered call returns or throws. *)
Lemma answered_run prompt options self w r :
  answered prompt options self w r →
  (AI21._call prompt options (self, w)).1 =
  if negb (ok r)
  then Threw (Error (AI21.status_message r) (Some r))
  else match json r with
       | None => Threw (SyntaxError "Unexpected token in JSON")
       | Some v =>
           (completionOf v (self, sent (requestOf self prompt options) w)).1
       end.
Proof.
  intros H. apply answered_inv in H as (Hkey & Hstop & Hresp).
  rewrite call_run, Hkey, Hstop. simpl. rewrite Hresp.
  destruct (negb (ok r)); [reflexivity|]. now destruct (json r).
Qed.

Example status_500 :
  (AI21._call "Tell me a joke." (stopping None)
     (keyed, world_answering (responding 500 false None))).1 =
  Threw (Error "AI21 call failed with status code 500"
           (Some {| ok := false; status := 500; json := None |})).
Proof. reflexivity. Qed.



Lemma completionOf_no_completions {S} (envelope : Value) (s : S) :
  nullish envelope = false →
  field envelope "completions" = None →
  completionOf envelope s = (Threw (Error AI21.no_completions_message None), s).
Proof.
  intros Hnull Hfield.
  destruct envelope; try discriminate Hnull; try reflexivity.
  now apply completionOf_absent.
Qed.

(** With a first completion that is not [null], the outcome is decided by
    its [data]. *)
Lemma completionOf_first_value {S} (envelope first : Value) (rest : list Value) (s : S) :
  field envelope "completions" = Some (VArr (first :: rest)) →
  nullish first = false →
  completionOf envelope s =
  match field first "data" with
  | None => (Threw (Error AI21.no_completions_message None), s)
  | Some d =>
      if truthy d
      then
        match get d "text" s with
        | (Returned text, _) =>
            (Returned (if nullish text then VStr EmptyString else text), s)
        | (Threw e, _) => (Threw e, s)
        end
      else (Threw (Error AI21.no_completions_message None), s)
  end.
Proof.
  intros Hfield Hnull.
  destruct envelope as [| | | | | |m]; try discriminate Hfield. simpl in Hfield.
  destruct first as [| | | | | |first]; try discriminate Hnull;
    try (unfold completionOf; run; now rewrite get_object, Hfield).
  exact (completionOf_first m first rest s Hfield).
Qed.

(** A value that is not [null] and has no [text] reads as undefined there. *)
Lemma get_text_absent {S} (v : Value) (s : S) :
  nullish v = false →
  field v "text" = None →
  get v "text" s = (Returned VUndefined, s).
Proof.
  intros Hnull Hfield. destruct v; try discriminate Hnull; try reflexivity.
  simpl in Hfield. now rewrite get_object, Hfield.
Qed.

Lemma truthy_not_nullish (v : Value) : truthy v = true → nullish v = false.
Proof. now destruct v. Qed.

(** C6, as stated, fails: in [{ completions: [null] }] the first completion
    has no [data] field, yet the call throws the [TypeError] of reading
    [data] of [null], not the empty-result error. *)
Lemma null_completion_is_not_empty_result :
  field (VObj {[ "completions" := VArr [VNull] ]}) "completions" = Some (VArr [VNull]) ∧
  field VNull "data" = None ∧
  (AI21._call "Tell me a joke." (stopping None)
     (keyed,
      world_answering
        (responding 200 true (Some (VObj {[ "completions" := VArr [VNull] ]}))))).1 =
    Threw cannot_read ∧
  ¬ (∃ e, (AI21._call "Tell me a joke." (stopping None)
             (keyed,
              world_answering
                (responding 200 true (Some (VObj {[ "completions" := VArr [VNull] ]}))))).1 =
            Threw e ∧ EmptyResult e).
Proof.
  assert (H : (AI21._call "Tell me a joke." (stopping None)
     (keyed,
      world_answering
        (responding 200 true (Some (VObj {[ "completions" := VArr [VNull] ]}))))).1 =
    Threw cannot_read) by reflexivity.
  split; [reflexivity|]. split; [reflexivity|]. split; [exact H|].
  intros (e & He & Hempty). rewrite H in He. injection He as <-.
  discriminate Hempty.
Qed.

(** C6 (amended): when the response is [ok], its envelope is not [null], and
    the envelope has no [completions], an empty [completions] array, or a
    first completion that is not [null] and has no [data], the call throws the
    empty-result error; it does not return. *)
Theorem empty_result prompt options self w r (envelope : Value) :
  answered prompt options self w r →
  ok r = true →
  json r = Some envelope →
  nullish envelope = false →
  lacks_completions envelope →
  ∃ e, (AI21._call prompt options (self, w)).1 = Threw e ∧ EmptyResult e.
Proof.
  intros H Hok Hjson Hnull Hm. exists (Error AI21.no_completions_message None).
  split; [|reflexivity].
  rewrite (answered_run _ _ _ _ _ H), Hok, Hjson. simpl.
  destruct Hm as [Habsent | Hempty | first rest Hfirst Hfirstnull Hdata].
  - now rewrite completionOf_no_completions.
  - destruct envelope as [| | | | | |m]; try discriminate Hempty.
    now rewrite completionOf_empty.
  - now rewrite (completionOf_first_value _ _ _ _ Hfirst Hfirstnull), Hdata.
Qed.

Lemma empty_result_witness :
  ∃ e, (AI21._call "Tell me a joke." (stopping None)
          (keyed,
           world_answering
             (responding 200 true
                (Some (VObj {[ "completions" := VArr [VStr "text"] ]}))))).1 =
       Threw e ∧ EmptyResult e.
Proof.
  apply (empty_result "Tell me a joke." (stopping None) keyed
           (world_answering
              (responding 200 true
                 (Some (VObj {[ "completions" := VArr [VStr "text"] ]}))))
           {| ok := true; status := 200;
              json := Some (VObj {[ "completions" := VArr [VStr "text"] ]}) |}
           (VObj {[ "completions" := VArr [VStr "text"] ]})).
  - apply answered_intro; reflexivity.
  - reflexivity.
  - reflexivity.
  - reflexivity.
  - apply (completion_without_data _ (VStr "text") []); reflexivity.
Defined.

Example empty_completions :
  (AI21._call "Tell me a joke." (stopping None)
     (keyed,
      world_answering
        (responding 200 true (Some (VObj {[ "completions" := VArr [] ]}))))).1 =
  Threw (Error "No completions found in response" None).
Proof. reflexivity. Qed.

Example no_envelope_fields :
  (AI21._call "Tell me a joke." (stopping None)
     (keyed, world_answering (responding 200 true (Some (VObj ∅))))).1 =
  Threw (Error "No completions found in response" None).
Proof. reflexivity. Qed.

Example first_completion_without_data :
  (AI21._call "Tell me a joke." (stopping None)
     (keyed,
      world_answering
        (responding 200 true (Some (VObj {[ "completions" := VArr [VObj ∅] ]}))))).1 =
  Threw (Error "No completions found in response" None).
Proof. reflexivity. Qed.

(** C7, as stated, fails: in [{ completions: [ { data: null } ] }] the first
    completion has a [data] field and no [text], yet the call throws the
    empty-result error instead of returning the empty string. *)
Lemma null_data_is_not_empty_text :
  field (VObj {[ "data" := VNull ]}) "data" = Some VNull ∧
  field VNull "text" = None ∧
  (AI21._call "Tell me a joke." (stopping None)
     (keyed, world_answering (responding 200 true (Some (envelope_of VNull))))).1 =
    Threw (Error AI21.no_completions_message None) ∧
  (AI21._call "Tell me a joke." (stopping None)
     (keyed, world_answering (responding 200 true (Some (envelope_of VNull))))).1 ≠
    Returned (VStr EmptyString).
Proof.
  split; [reflexivity|]. split; [reflexivity|]. split; [reflexivity|].
  intros H. discriminate H.
Qed.

(** C7 (amended): when the response is [ok] and the first completion of its
    envelope has a [data] that is truthy (anything but null, false, 0 and the
    empty string) and has no [text], the call returns the empty string. *)
Theorem absent_text_is_empty prompt options self w r
    (envelope first data : Value) (rest : list Value) :
  answered prompt options self w r →
  ok r = true →
  json r = Some envelope →
  field envelope "completions" = Some (VArr (first :: rest)) →
  field first "data" = Some data →
  truthy data = true →
  field data "text" = None →
  (AI21._call prompt options (self, w)).1 = Returned (VStr EmptyString).
Proof.
  intros H Hok Hjson Hfirst Hdata Htruthy Htext.
  rewrite (answered_run _ _ _ _ _ H), Hok, Hjson. simpl.
  assert (Hnull : nullish first = false)
    by (destruct first; try discriminate Hdata; reflexivity).
  rewrite (completionOf_first_value _ _ _ _ Hfirst Hnull), Hdata, Htruthy.
  now rewrite (get_text_absent _ _ (truthy_not_nullish _ Htruthy) Htext).
Qed.

Lemma absent_text_is_empty_witness :
  (AI21._call "Tell me a joke." (stopping None)
     (keyed, world_answering (responding 200 true (Some textless)))).1 =
  Returned (VStr EmptyString).
Proof.
  apply (absent_text_is_empty "Tell me a joke." (stopping None) keyed
           (world_answering (responding 200 true (Some textless)))
           {| ok := true; status := 200; json := Some textless |}
           textless (VObj {[ "data" := VObj ∅ ]}) (VObj ∅) []).
  - apply answered_intro; reflexivity.
  - reflexivity.
  - reflexivity.
  - reflexivity.
  - reflexivity.
  - reflexivity.
  - reflexivity.
Defined.

Example text_is_returned :
  (AI21._call "Tell me a joke." (stopping None)
     (keyed,
      world_answering
        (responding 200 true
           (Some (VObj {[ "completions" :=
                            VArr [VObj {[ "data" := VObj {[ "text" := VStr "Knock" ]} ]}] ]}))))).1 =
  Returned (VStr "Knock").
Proof. reflexivity. Qed.

(** ** Configuration *)

(** C8: the default penalty data is scale 0 with the five flags set, and an
    instance constructed without penalty fields has it as its presence, count
    and frequency penalty. *)
Theorem default_penalty_data :
  AI21.getDefaultAI21PenaltyData =
    {| scale := 0; applyToWhitespaces := true; applyToPunctuations := true;
       applyToNumbers := true; applyToStopwords := true; applyToEmojis := true |} ∧
  ∀ (fields : option AI21Input.t) (w : World),
    fields ≫= AI21Input.presencePenalty = None →
    fields ≫= AI21Input.countPenalty = None →
    fields ≫= AI21Input.frequencyPenalty = None →
    ∃ self,
      (AI21.constructor fields w).1 = Returned self ∧
      AI21.presencePenalty self = AI21.getDefaultAI21PenaltyData ∧
      AI21.countPenalty self = AI21.getDefaultAI21PenaltyData ∧
      AI21.frequencyPenalty self = AI21.getDefaultAI21PenaltyData.
Proof.
  split; [reflexivity|]. intros fields w Hp Hc Hf. exists (instance fields w).
  split; [now rewrite constructor_returns|].
  destruct (constructor_penalties fields w) as (-> & -> & ->).
  now rewrite Hp, Hc, Hf.
Qed.

Lemma default_penalty_data_witness :
  ∃ self,
    (AI21.constructor (Some with_key) offline).1 = Returned self ∧
    AI21.presencePenalty self = AI21.getDefaultAI21PenaltyData ∧
    AI21.countPenalty self = AI21.getDefaultAI21PenaltyData ∧
    AI21.frequencyPenalty self = AI21.getDefaultAI21PenaltyData.
Proof.
  apply (proj2 default_penalty_data (Some with_key) offline); reflexivity.
Defined.

(** C9: whatever [_call] returns or throws, the receiver it ends with is the
    receiver it started with, field for field. *)
Theorem call_keeps_configuration prompt options self w :
  (AI21._call prompt options (self, w)).2.1 = self.
Proof.
  change (same_this (self, w) (AI21._call prompt options (self, w)).2).
  generalize (self, w). change (respects same_this (AI21._call prompt options)).
  unfold AI21._call, AI21.validateEnvironment, AI21.defaultParams, AI21.request,
    callWithOptions, this.
  frame_steps (@same_this_refl AI21.t) (@same_this_trans AI21.t).
Qed.

(** ** Moderation *)

Lemma constructed_throwError (fields : option OpenAIModerationChainInput.t)
    (w : World) (chain : OpenAIModerationChain.t) :
  (OpenAIModerationChain.constructor fields w).1 = Returned chain →
  OpenAIModerationChain.throwError chain =
  default false (fields ≫= OpenAIModerationChainInput.throwError).
Proof.
  intros Hc. unfold OpenAIModerationChain.constructor in Hc.
  rewrite bind_run in Hc.
  destruct (fields ≫= OpenAIModerationChainInput.openAIApiKey) as [key|];
    unfold mret, eff_ret, getEnvironmentVariable, gets, throw in Hc.
  - destruct (negb (truthy_string (Some key))); [discriminate Hc|].
    injection Hc as <-. reflexivity.
  - destruct (negb (truthy_string (env w !! "OPENAI_API_KEY")));
      [discriminate Hc|].
    injection Hc as <-. reflexivity.
Qed.

Lemma moderate_run (text : string) (results : Moderation.t)
    (self : OpenAIModerationChain.t) (w : World) :
  OpenAIModerationChain._moderate text results (self, w) =
  (if Moderation.flagged results
   then if OpenAIModerationChain.throwError self
        then Threw (Error OpenAIModerationChain.errorStr None)
        else Returned OpenAIModerationChain.errorStr
   else Returned text,
   (self, w)).
Proof.
  unfold OpenAIModerationChain._moderate.
  destruct (Moderation.flagged results); [|reflexivity]. run.
  now destruct (OpenAIModerationChain.throwError self).
Qed.

(** C10: [_moderate] returns the text when the verdict is not flagged; when
    it is flagged it throws if [throwError] is set and returns the fixed
    policy sentence otherwise.  The [throwError] of a constructed chain is the
    one passed to the constructor, false when none was passed: on a flagged
    verdict a chain constructed with [throwError: true] throws, and a chain
    constructed with [throwError: false] or without it returns the policy
    sentence. *)
Theorem moderate_verdict (text : string) (results : Moderation.t)
    (self : OpenAIModerationChain.t) (w : World) :
  (Moderation.flagged results = false →
   OpenAIModerationChain._moderate text results (self, w) =
   (Returned text, (self, w))) ∧
  (Moderation.flagged results = true →
   OpenAIModerationChain.throwError self = true →
   OpenAIModerationChain._moderate text results (self, w) =
   (Threw (Error OpenAIModerationChain.errorStr None), (self, w))) ∧
  (Moderation.flagged results = true →
   OpenAIModerationChain.throwError self = false →
   OpenAIModerationChain._moderate text results (self, w) =
   (Returned OpenAIModerationChain.errorStr, (self, w))) ∧
  (∀ fields w0 chain,
     (OpenAIModerationChain.constructor fields w0).1 = Returned chain →
     OpenAIModerationChain.throwError chain =
       default false (fields ≫= OpenAIModerationChainInput.throwError) ∧
     (Moderation.flagged results = true →
      fields ≫= OpenAIModerationChainInput.throwError = Some true →
      OpenAIModerationChain._moderate text results (chain, w) =
      (Threw (Error OpenAIModerationChain.errorStr None), (chain, w))) ∧
     (Moderation.flagged results = true →
      fields ≫= OpenAIModerationChainInput.throwError ≠ Some true →
      OpenAIModerationChain._moderate text results (chain, w) =
      (Returned OpenAIModerationChain.errorStr, (chain, w)))).
Proof.
  split; [|split; [|split]].
  - intros Hf. now rewrite moderate_run, Hf.
  - intros Hf Ht. now rewrite moderate_run, Hf, Ht.
  - intros Hf Ht. now rewrite moderate_run, Hf, Ht.
  - intros fields w0 chain Hc.
    pose proof (constructed_throwError fields w0 chain Hc) as Hthrow.
    split; [exact Hthrow|]. split.
    + intros Hf Hsome. rewrite moderate_run, Hf, Hthrow, Hsome. reflexivity.
    + intros Hf Hnot. rewrite moderate_run, Hf, Hthrow.
      destruct (fields ≫= OpenAIModerationChainInput.throwError) as [[|]|];
        [congruence | reflexivity | reflexivity].
Qed.

Example moderator_is_constructed :
  OpenAIModerationChain.constructor (Some key_only) offline =
  (Returned (moderator false), offline).
Proof. vm_compute. reflexivity. Qed.

Example throwing_moderator_is_constructed :
  OpenAIModerationChain.constructor (Some key_and_throw) offline =
  (Returned (moderator true), offline).
Proof. vm_compute. reflexivity. Qed.

Lemma moderate_verdict_witness :
  OpenAIModerationChain._moderate "hello" (verdict false) (moderator false, offline) =
    (Returned "hello", (moderator false, offline)) ∧
  OpenAIModerationChain._moderate "hello" (verdict true) (moderator true, offline) =
    (Threw (Error OpenAIModerationChain.errorStr None), (moderator true, offline)) ∧
  OpenAIModerationChain._moderate "hello" (verdict true) (moderator false, offline) =
    (Returned OpenAIModerationChain.errorStr, (moderator false, offline)) ∧
  (OpenAIModerationChain.constructor (Some key_and_throw) offline).1 =
    Returned (moderator true) ∧
  (OpenAIModerationChain.constructor (Some key_only) offline).1 =
    Returned (moderator false).
Proof.
  split; [|split; [|split; [|split]]].
  - apply (proj1 (moderate_verdict "hello" (verdict false) (moderator false) offline)).
    reflexivity.
  - apply (proj1 (proj2 (proj2 (proj2 (proj2
             (moderate_verdict "hello" (verdict true) (moderator false) offline)))
             (Some key_and_throw) offline (moderator true)
             ltac:(vm_compute; reflexivity)))).
    + reflexivity.
    + reflexivity.
  - apply (proj2 (proj2 (proj2 (proj2 (proj2
             (moderate_verdict "hello" (verdict true) (moderator true) offline)))
             (Some key_only) offline (moderator false)
             ltac:(vm_compute; reflexivity)))).
    + reflexivity.
    + discriminate.
  - vm_compute. reflexivity.
  - vm_compute. reflexivity.
Defined.

(** ** Further properties of [AI21._call] *)

Lemma bind_returned {S A B} (c : Eff S A) (k : A → Eff S B) (s s2 : S) (b : B) :
  (c ≫= k) s = (Returned b, s2) →
  ∃ a s1, c s = (Returned a, s1) ∧ k a s1 = (Returned b, s2).
Proof.
  rewrite bind_run. destruct (c s) as [[a|e] s1]; [|discriminate].
  intros H. now exists a, s1.
Qed.

(** A returned text has been through [?? ""]. *)
Lemma completionOf_returns {S} (v t : Value) (s s' : S) :
  completionOf v s = (Returned t, s') → nullish t = false.
Proof.
  unfold completionOf. intros H.
  apply bind_returned in H as (completions & s1 & _ & H).
  apply bind_returned in H as (none & s2 & _ & H).
  destruct none; [discriminate H|].
  apply bind_returned in H as (first & s3 & _ & H).
  apply bind_returned in H as (d & s4 & _ & H).
  apply bind_returned in H as (text & s5 & _ & H).
  injection H as <- _. now destruct (nullish text) eqn:Htext.
Qed.


(** The state [_call] ends in: the receiver it started with, and the world
    with [requestOf] logged when the call got as far as [fetch]. *)
Lemma call_state prompt options self w :
  (AI21._call prompt options (self, w)).2 =
  (self, if reaches_fetch self options
         then sent (requestOf self prompt options) w
         else w).
Proof.
  rewrite call_run. unfold reaches_fetch.
  destruct (truthy_string (AI21.ai21ApiKey self)); [|reflexivity].
  destruct (AI21.stop_in_both _ _); [reflexivity|]. simpl.
  destruct (respond w _) as [r|e]; [|reflexivity].
  destruct (negb (ok r)); [reflexivity|].
  destruct (json r); [|reflexivity].
  now rewrite completionOf_stateless.
Qed.

Lemma sends_inv prompt options self w req :
  sends prompt options self w req →
  reaches_fetch self options = true ∧ req = requestOf self prompt options.
Proof.
  unfold sends. rewrite call_state.
  destruct (reaches_fetch self options); simpl; intros H.
  - split; [reflexivity|]. congruence.
  - now apply cons_not_self in H.
Qed.

Lemma sends_intro prompt options self w :
  reaches_fetch self options = true →
  sends prompt options self w (requestOf self prompt options).
Proof. intros H. unfold sends. now rewrite call_state, H. Qed.

Lemma reaches_fetch_inv self options :
  reaches_fetch self options = true →
  truthy_string (AI21.ai21ApiKey self) = true ∧
  AI21.stop_in_both (AI21.stop self) (CallOptions.stop options) = false.
Proof.
  unfold reaches_fetch. intros [H1 H2]%andb_true_iff.
  split; [exact H1|]. now apply negb_true_iff.
Qed.

(** The outcome of a call that got as far as [fetch]. *)
Lemma sends_run prompt options self w req :
  sends prompt options self w req →
  (AI21._call prompt options (self, w)).1 =
  match respond w req with
  | Rejected e => Threw e
  | Responded r =>
      if negb (ok r)
      then Threw (Error (AI21.status_message r) (Some r))
      else match json r with
           | None => Threw (SyntaxError "Unexpected token in JSON")
           | Some v => (completionOf v (self, sent req w)).1
           end
  end.
Proof.
  intros H. apply sends_inv in H as (H & ->).
  apply reaches_fetch_inv in H as (Hkey & Hstop).
  rewrite call_run, Hkey, Hstop. simpl.
  destruct (respond w _) as [r|e]; [|reflexivity].
  destruct (negb (ok r)); [reflexivity|]. now destruct (json r).
Qed.

(** X1: the requests a call adds to the log go in front of the earlier ones,
    which stay as they were; each of them is the request built from the
    instance, the prompt and the options; and there is none when the instance
    has no non-empty key or the stop lists conflict. *)
Theorem call_sends_only_its_request prompt options self w :
  ∃ new,
    outbound (after (AI21._call prompt options) (self, w)).2 = new ++ outbound w ∧
    (∀ req, req ∈ new → req = requestOf self prompt options) ∧
    (truthy_string (AI21.ai21ApiKey self) = false → new = []) ∧
    (AI21.stop_in_both (AI21.stop self) (CallOptions.stop options) = true → new = []).
Proof.
  unfold after. rewrite call_state. unfold reaches_fetch.
  destruct (truthy_string (AI21.ai21ApiKey self));
    destruct (AI21.stop_in_both _ _); simpl.
  - exists []. repeat split. intros req Hin. inversion Hin.
  - exists [requestOf self prompt options]. repeat split; try discriminate.
    intros req Hin. apply list_elem_of_singleton in Hin. exact Hin.
  - exists []. repeat split. intros req Hin. inversion Hin.
  - exists []. repeat split. intros req Hin. inversion Hin.
Qed.

Lemma call_sends_only_its_request_witness :
  outbound (after (AI21._call "Tell me a joke." (stopping None)) (AI21.initial, offline)).2 =
  outbound offline.
Proof.
  destruct (call_sends_only_its_request "Tell me a joke." (stopping None)
              AI21.initial offline) as (new & Hout & _ & Hkey & _).
  rewrite Hout, (Hkey eq_refl). reflexivity.
Defined.

(** X2: when the request of a call is rejected by the network, the call
    throws the very reason of the rejection, unwrapped. *)
Theorem transport_failure_is_rethrown prompt options self w req e :
  sends prompt options self w req →
  respond w req = Rejected e →
  (AI21._call prompt options (self, w)).1 = Threw e.
Proof. intros H He. now rewrite (sends_run _ _ _ _ _ H), He. Qed.

Lemma transport_failure_is_rethrown_witness :
  (AI21._call "Tell me a joke." (stopping None) (keyed, offline)).1 =
  Threw (TypeError "fetch failed").
Proof.
  apply (transport_failure_is_rethrown "Tell me a joke." (stopping None) keyed
           offline (requestOf keyed "Tell me a joke." (stopping None))).
  - apply sends_intro. reflexivity.
  - reflexivity.
Defined.

(** X3: when the response is [ok] and the first completion has a [data]
    object whose [text] is neither null nor undefined, the call returns that
    text, whatever the other completions are. *)
Theorem first_text_is_returned prompt options self w r
    (m first data : gmap string Value) (rest : list Value) (text : Value) :
  answered prompt options self w r →
  ok r = true →
  json r = Some (VObj m) →
  m !! "completions" = Some (VArr (VObj first :: rest)) →
  first !! "data" = Some (VObj data) →
  data !! "text" = Some text →
  nullish text = false →
  (AI21._call prompt options (self, w)).1 = Returned text.
Proof.
  intros H Hok Hjson Hfirst Hdata Htext Hnull.
  rewrite (answered_run _ _ _ _ _ H), Hok, Hjson. simpl.
  rewrite (completionOf_first _ _ _ _ Hfirst), Hdata. simpl.
  rewrite Htext. simpl. now rewrite Hnull.
Qed.

Lemma first_text_is_returned_witness :
  (AI21._call "Tell me a joke." (stopping None)
     (keyed,
      world_answering
        (responding 200 true
           (Some (VObj {[ "completions" :=
                            VArr [VObj {[ "data" := VObj {[ "text" := VStr "Knock" ]} ]};
                                  VNull] ]}))))).1 =
  Returned (VStr "Knock").
Proof.
  apply (first_text_is_returned "Tell me a joke." (stopping None) keyed _
           {| ok := true; status := 200;
              json := Some (VObj {[ "completions" :=
                            VArr [VObj {[ "data" := VObj {[ "text" := VStr "Knock" ]} ]};
                                  VNull] ]}) |}
           {[ "completions" :=
                VArr [VObj {[ "data" := VObj {[ "text" := VStr "Knock" ]} ]}; VNull] ]}
           {[ "data" := VObj {[ "text" := VStr "Knock" ]} ]}
           {[ "text" := VStr "Knock" ]} [VNull] (VStr "Knock")).
  - apply answered_intro; reflexivity.
  - reflexivity.
  - reflexivity.
  - reflexivity.
  - reflexivity.
  - reflexivity.
  - reflexivity.
Defined.

(** X4: whatever the instance, the options and the network, a call that
    returns returns a value that is neither null nor undefined. *)
Theorem call_never_returns_nullish prompt options self w (v : Value) :
  (AI21._call prompt options (self, w)).1 = Returned v →
  nullish v = false.
Proof.
  rewrite call_run.
  destruct (negb (truthy_string (AI21.ai21ApiKey self))); [discriminate|].
  destruct (AI21.stop_in_both _ _); [discriminate|]. simpl.
  destruct (respond w _) as [r|e]; [|discriminate].
  destruct (negb (ok r)); [discriminate|].
  destruct (json r) as [envelope|]; [|discriminate].
  destruct (completionOf envelope _) as [out s'] eqn:Hrun. simpl.
  intros ->. exact (completionOf_returns _ _ _ _ Hrun).
Qed.

Lemma call_never_returns_nullish_witness :
  (AI21._call "Tell me a joke." (stopping None)
     (keyed,
      world_answering
        (responding 200 true (Some (envelope_of (VObj {[ "text" := VNull ]})))))).1 =
    Returned (VStr EmptyString) ∧
  nullish (VStr EmptyString) = false.
Proof.
  split; [reflexivity|].
  apply (call_never_returns_nullish "Tell me a joke." (stopping None) keyed
           (world_answering
              (responding 200 true
                 (Some (envelope_of (VObj {[ "text" := VNull ]})))))).
  reflexivity.
Defined.

(** X5: when the response is [ok] and the [data] of the first completion is
    present but falsy (null, false, 0 or the empty string), the call throws
    the empty-result error. *)
Theorem falsy_data_is_empty_result prompt options self w r
    (m first : gmap string Value) (rest : list Value) (data : Value) :
  answered prompt options self w r →
  ok r = true →
  json r = Some (VObj m) →
  m !! "completions" = Some (VArr (VObj first :: rest)) →
  first !! "data" = Some data →
  truthy data = false →
  ∃ e, (AI21._call prompt options (self, w)).1 = Threw e ∧ EmptyResult e.
Proof.
  intros H Hok Hjson Hfirst Hdata Hfalsy.
  exists (Error AI21.no_completions_message None). split; [|reflexivity].
  rewrite (answered_run _ _ _ _ _ H), Hok, Hjson. simpl.
  now rewrite (completionOf_first _ _ _ _ Hfirst), Hdata, Hfalsy.
Qed.

Lemma falsy_data_is_empty_result_witness :
  ∃ e, (AI21._call "Tell me a joke." (stopping None)
          (keyed, world_answering (responding 200 true (Some (envelope_of VNull))))).1 =
       Threw e ∧ EmptyResult e.
Proof.
  apply (falsy_data_is_empty_result "Tell me a joke." (stopping None) keyed _
           {| ok := true; status := 200; json := Some (envelope_of VNull) |}
           {[ "completions" := VArr [VObj {[ "data" := VNull ]}] ]}
           {[ "data" := VNull ]} [] VNull).
  - apply answered_intro; reflexivity.
  - reflexivity.
  - reflexivity.
  - reflexivity.
  - reflexivity.
  - reflexivity.
Defined.

Lemma completionOf_null_first {S} (m : gmap string Value) (rest : list Value) (s : S) :
  m !! "completions" = Some (VArr (VNull :: rest)) →
  completionOf (VObj m) s = (Threw cannot_read, s).
Proof. intros H. unfold completionOf. run. now rewrite get_object, H. Qed.

(** X6: when the response is [ok] and the first completion is [null], reading
    its [data] fails: the call throws a [TypeError], not the empty-result
    error. *)
Theorem null_completion_is_type_error prompt options self w r
    (m : gmap string Value) (rest : list Value) :
  answered prompt options self w r →
  ok r = true →
  json r = Some (VObj m) →
  m !! "completions" = Some (VArr (VNull :: rest)) →
  ∃ msg, (AI21._call prompt options (self, w)).1 = Threw (TypeError msg) ∧
         ¬ EmptyResult (TypeError msg).
Proof.
  intros H Hok Hjson Hfirst.
  exists "Cannot read properties of undefined or null". split; [|discriminate].
  rewrite (answered_run _ _ _ _ _ H), Hok, Hjson. simpl.
  now rewrite (completionOf_null_first _ _ _ Hfirst).
Qed.

Lemma null_completion_is_type_error_witness :
  ∃ msg,
    (AI21._call "Tell me a joke." (stopping None)
       (keyed,
        world_answering
          (responding 200 true (Some (VObj {[ "completions" := VArr [VNull] ]}))))).1 =
      Threw (TypeError msg) ∧
    ¬ EmptyResult (TypeError msg).
Proof.
  apply (null_completion_is_type_error "Tell me a joke." (stopping None) keyed _
           {| ok := true; status := 200;
              json := Some (VObj {[ "completions" := VArr [VNull] ]}) |}
           {[ "completions" := VArr [VNull] ]} []).
  - apply answered_intro; reflexivity.
  - reflexivity.
  - reflexivity.
  - reflexivity.
Defined.

(** X7: on an instance without [baseUrl], the request of a call goes to the
    experimental endpoint when the model is [j1-grande-instruct] and to the
    standard endpoint otherwise, followed by the model and [/complete]. *)
Theorem default_endpoint prompt options self w req :
  sends prompt options self w req →
  AI21.baseUrl self = None →
  url req =
  (if String.eqb (AI21.model self) "j1-grande-instruct"
   then "https://api.ai21.com/studio/v1/experimental"
   else "https://api.ai21.com/studio/v1")
  +:+ "/" +:+ AI21.model self +:+ "/complete".
Proof.
  intros (_ & ->)%sends_inv Hbase. simpl.
  now rewrite chooseBaseUrl_default.
Qed.

Lemma default_endpoint_witness :
  url (requestOf keyed "Tell me a joke." (stopping None)) =
  "https://api.ai21.com/studio/v1/j2-jumbo-instruct/complete".
Proof.
  apply (default_endpoint "Tell me a joke." (stopping None) keyed offline).
  - apply sends_intro. reflexivity.
  - reflexivity.
Defined.

(** X8: the request of a call is a POST that carries the key of the instance
    as bearer token and the JSON content type, and nothing else, in its
    headers; its body has the prompt of the call and the sampling parameters
    of the instance; its signal is the one of the options. *)
Theorem request_contents (question : string) options self w req :
  sends question options self w req →
  method req = "POST" ∧
  (∃ key, AI21.ai21ApiKey self = Some key ∧ key ≠ EmptyString ∧
          headers req =
          {[ "Authorization" := "Bearer " +:+ key;
             "Content-Type" := "application/json" ]}) ∧
  prompt (body req) = question ∧
  params (body req) =
    {| Params.temperature := AI21.temperature self;
       Params.maxTokens := AI21.maxTokens self;
       Params.minTokens := AI21.minTokens self;
       Params.topP := AI21.topP self;
       Params.presencePenalty := AI21.presencePenalty self;
       Params.countPenalty := AI21.countPenalty self;
       Params.frequencyPenalty := AI21.frequencyPenalty self;
       Params.numResults := AI21.numResults self;
       Params.logitBias := AI21.logitBias self |} ∧
  signal req = CallOptions.signal options.
Proof.
  intros (Hreach & ->)%sends_inv.
  apply reaches_fetch_inv in Hreach as (Hkey & _).
  split; [reflexivity|]. split; [|repeat split].
  destruct (AI21.ai21ApiKey self) as [key|] eqn:Hk; [|discriminate Hkey].
  exists key. split; [reflexivity|]. split.
  - intros ->. discriminate Hkey.
  - simpl. now rewrite Hk.
Qed.

Lemma request_contents_witness :
  headers (requestOf keyed "Tell me a joke." (stopping None)) !! "Authorization" =
  Some "Bearer secret".
Proof.
  destruct (request_contents "Tell me a joke." (stopping None) keyed offline
              (requestOf keyed "Tell me a joke." (stopping None))
              (sends_intro "Tell me a joke." (stopping None) keyed offline eq_refl))
    as (_ & (key & Hkey & _ & Hheaders) & _).
  rewrite Hheaders. injection Hkey as <-. reflexivity.
Defined.

(** X9: in the request of a call, [stopSequences] is the list of the options
    (empty when they have none) when the instance has no stop list, and the
    list of the instance when that one is not empty, in which case the
    options have no stop list or an empty one. *)
Theorem stop_sequences_sent prompt options self w req :
  sends prompt options self w req →
  (AI21.stop self = None →
   stopSequences (body req) = default [] (CallOptions.stop options)) ∧
  (∀ static, AI21.stop self = Some static → static ≠ [] →
     stopSequences (body req) = static ∧
     (CallOptions.stop options = None ∨ CallOptions.stop options = Some [])).
Proof.
  intros (Hreach & ->)%sends_inv.
  apply reaches_fetch_inv in Hreach as (_ & Hstop). split.
  - apply merge_static_absent.
  - intros static Hs Hne. split; [now apply merge_static_present|].
    rewrite Hs in Hstop.
    destruct (CallOptions.stop options) as [[|c call]|]; [now right | | now left].
    now rewrite stop_in_both_nonempty in Hstop.
Qed.

Lemma stop_sequences_sent_witness :
  stopSequences (body (requestOf keyed "Tell me a joke." (stopping (Some ["."])))) =
  ["."].
Proof.
  apply (proj1 (stop_sequences_sent "Tell me a joke." (stopping (Some ["."])) keyed
                  offline _
                  (sends_intro "Tell me a joke." (stopping (Some ["."])) keyed offline
                     eq_refl))).
  reflexivity.
Defined.

(** ** Construction, then calls *)

(** X10: the key of a new instance is the one passed, whatever the
    environment says, and the value of [AI21_API_KEY] only when none was
    passed.  When that key is undefined or empty every call throws the
    missing-key error and sends nothing; when it is a non-empty [key], every
    request a call adds to the log has [Bearer key] as its authorization. *)
Theorem construct_then_call (fields : option AI21Input.t) (w : World)
    prompt options :
  ∃ self,
    AI21.constructor fields w = (Returned self, w) ∧
    AI21.ai21ApiKey self =
      (fields ≫= AI21Input.ai21ApiKey) ?? (env w !! "AI21_API_KEY") ∧
    (truthy_string (AI21.ai21ApiKey self) = false →
     AI21._call prompt options (self, w) =
     (Threw (Error AI21.no_key_message None), (self, w))) ∧
    (∀ key, AI21.ai21ApiKey self = Some key → key ≠ EmptyString →
       ∀ req, req ∈ outbound (after (AI21._call prompt options) (self, w)).2 →
              req ∈ outbound w ∨
              headers req !! "Authorization" = Some ("Bearer " +:+ key)).
Proof.
  exists (instance fields w).
  split; [apply constructor_returns|]. split; [apply constructor_key|].
  split; [apply call_without_key|].
  intros key Hkey Hne req. unfold after. rewrite call_state.
  destruct (reaches_fetch (instance fields w) options); simpl; [|now left].
  intros [->|Hin]%elem_of_cons; [right | now left].
  simpl. rewrite Hkey. apply lookup_insert_eq.
Qed.

Lemma construct_then_call_witness :
  ∃ self,
    AI21.constructor (Some (with_ai21ApiKey EmptyString AI21Input.empty))
      (world_with_env "AI21_API_KEY" "from-env" (Rejected AbortError)) =
      (Returned self, world_with_env "AI21_API_KEY" "from-env" (Rejected AbortError)) ∧
    AI21.ai21ApiKey self = Some EmptyString ∧
    AI21._call "Tell me a joke." (stopping None)
      (self, world_with_env "AI21_API_KEY" "from-env" (Rejected AbortError)) =
    (Threw (Error AI21.no_key_message None),
     (self, world_with_env "AI21_API_KEY" "from-env" (Rejected AbortError))).
Proof.
  destruct (construct_then_call
              (Some (with_ai21ApiKey EmptyString AI21Input.empty))
              (world_with_env "AI21_API_KEY" "from-env" (Rejected AbortError))
              "Tell me a joke." (stopping None))
    as (self & Hnew & Hkey & Hmissing & _).
  exists self. split; [exact Hnew|]. split; [exact Hkey|].
  apply Hmissing. rewrite Hkey. reflexivity.
Defined.

Example key_from_environment :
  map (fun req => headers req !! "Authorization")
    (outbound
       (AI21._call "Tell me a joke." (stopping None)
          (instance None (world_with_env "AI21_API_KEY" "from-env" (Rejected AbortError)),
           world_with_env "AI21_API_KEY" "from-env" (Rejected AbortError))).2.2) =
  [Some "Bearer from-env"].
Proof. reflexivity. Qed.

(** ** The moderation chain *)

(** On a string [moderate] is [_moderate]. *)
Lemma moderate_string (text : string) (results : Moderation.t)
    (s : OpenAIModerationChain.t * World) :
  OpenAIModerationChain.moderate (VStr text) results s =
  match OpenAIModerationChain._moderate text results s with
  | (Returned t, s') => (Returned (VStr t), s')
  | (Threw e, s') => (Threw e, s')
  end.
Proof.
  unfold OpenAIModerationChain.moderate, OpenAIModerationChain._moderate.
  destruct (Moderation.flagged results); [|reflexivity].
  rewrite !bind_run. destruct s as [self w].
  unfold this, gets. simpl. now destruct (OpenAIModerationChain.throwError self).
Qed.

(** [new OpenAIModerationChain(fields)], step by step. *)
Lemma chain_constructor_run (fields : option OpenAIModerationChainInput.t) (w : World) :
  OpenAIModerationChain.constructor fields w =
  (if truthy_string
        ((fields ≫= OpenAIModerationChainInput.openAIApiKey) ??
         (env w !! "OPENAI_API_KEY"))
   then Returned
          (chain_of fields
             ((fields ≫= OpenAIModerationChainInput.openAIApiKey) ??
              (env w !! "OPENAI_API_KEY")))
   else Threw (Error OpenAIModerationChain.no_key_message None),
   w).
Proof.
  unfold OpenAIModerationChain.constructor. rewrite bind_run.
  destruct (fields ≫= OpenAIModerationChainInput.openAIApiKey) as [key|];
    unfold mret, eff_ret, getEnvironmentVariable, gets, throw, coalesce.
  - now destruct (truthy_string (Some key)).
  - now destruct (truthy_string (env w !! "OPENAI_API_KEY")).
Qed.

(** X12: the key of a new chain is the one passed, whatever the environment
    says, and the value of [OPENAI_API_KEY] only when none was passed.  When
    that key is undefined or empty the constructor throws; otherwise it
    returns a chain that holds the key, reads [input], writes [output], and
    throws on flagged text only if [throwError] was passed as true.  Either
    way the world is left as it was. *)
Theorem moderation_chain_construction
    (fields : option OpenAIModerationChainInput.t) (w : World) :
  (truthy_string
     ((fields ≫= OpenAIModerationChainInput.openAIApiKey) ??
      (env w !! "OPENAI_API_KEY")) = false →
   OpenAIModerationChain.constructor fields w =
   (Threw (Error "OpenAI API key not found" None), w)) ∧
  (truthy_string
     ((fields ≫= OpenAIModerationChainInput.openAIApiKey) ??
      (env w !! "OPENAI_API_KEY")) = true →
   ∃ chain,
     OpenAIModerationChain.constructor fields w = (Returned chain, w) ∧
     OpenAIModerationChain.openAIApiKey chain =
       (fields ≫= OpenAIModerationChainInput.openAIApiKey) ??
       (env w !! "OPENAI_API_KEY") ∧
     OpenAIModerationChain.inputKey chain = "input" ∧
     OpenAIModerationChain.outputKey chain = "output" ∧
     OpenAIModerationChain.throwError chain =
       default false (fields ≫= OpenAIModerationChainInput.throwError) ∧
     OpenAIModerationChain.client chain = OpenAIModerationChain.clientConfig chain).
Proof.
  split; intros H; rewrite chain_constructor_run, H; [reflexivity|].
  eexists. split; [reflexivity|]. repeat split.
Qed.

Lemma moderation_chain_construction_witness :
  OpenAIModerationChain.constructor
    (Some {| OpenAIModerationChainInput.openAIApiKey := Some EmptyString;
             OpenAIModerationChainInput.openAIOrganization := None;
             OpenAIModerationChainInput.throwError := None;
             OpenAIModerationChainInput.configuration := None |})
    (world_with_env "OPENAI_API_KEY" "from-env" (Rejected AbortError)) =
    (Threw (Error "OpenAI API key not found" None),
     world_with_env "OPENAI_API_KEY" "from-env" (Rejected AbortError)) ∧
  ∃ chain,
    OpenAIModerationChain.constructor None
      (world_with_env "OPENAI_API_KEY" "from-env" (Rejected AbortError)) =
      (Returned chain, world_with_env "OPENAI_API_KEY" "from-env" (Rejected AbortError)) ∧
    OpenAIModerationChain.openAIApiKey chain = Some "from-env".
Proof.
  split.
  - apply (proj1 (moderation_chain_construction _ _)). reflexivity.
  - destruct (proj2 (moderation_chain_construction None
                       (world_with_env "OPENAI_API_KEY" "from-env" (Rejected AbortError)))
                eq_refl)
      as (chain & Hnew & Hkey & _).
    exists chain. split; [exact Hnew|]. rewrite Hkey. reflexivity.
Defined.

(** X13: in the options a new chain builds its client from, every entry of the
    [configuration] passed stands as passed, also [apiKey] and
    [organization]; where [configuration] has no [apiKey] the entry is the key
    of the chain, and where it has no [organization] the entry is the
    organization passed, or undefined. *)
Theorem client_config_entries
    (fields : option OpenAIModerationChainInput.t) (w : World)
    (chain : OpenAIModerationChain.t) (configuration : gmap string Value) :
  (OpenAIModerationChain.constructor fields w).1 = Returned chain →
  default ∅ (fields ≫= OpenAIModerationChainInput.configuration) = configuration →
  (∀ name v, configuration !! name = Some v →
     OpenAIModerationChain.clientConfig chain !! name = Some v) ∧
  (configuration !! "apiKey" = None →
   OpenAIModerationChain.clientConfig chain !! "apiKey" =
   Some (OpenAIModerationChain.of_option (OpenAIModerationChain.openAIApiKey chain))) ∧
  (configuration !! "organization" = None →
   OpenAIModerationChain.clientConfig chain !! "organization" =
   Some (OpenAIModerationChain.of_option
           (fields ≫= OpenAIModerationChainInput.openAIOrganization))) ∧
  (∀ name, configuration !! name = None →
     name ≠ "apiKey" → name ≠ "organization" →
     OpenAIModerationChain.clientConfig chain !! name = None).
Proof.
  rewrite chain_constructor_run. simpl.
  destruct (truthy_string _); [|discriminate]. intros [= <-] Hcfg.
  unfold chain_of, OpenAIModerationChain.spread. simpl. rewrite Hcfg.
  repeat split.
  - intros name v Hv. now apply lookup_union_Some_l.
  - intros Hnone. rewrite lookup_union_r by exact Hnone.
    rewrite lookup_insert_ne by discriminate. apply lookup_insert_eq.
  - intros Hnone. rewrite lookup_union_r by exact Hnone. apply lookup_insert_eq.
  - intros name Hnone Hk Ho. rewrite lookup_union_r by exact Hnone.
    rewrite !lookup_insert_ne by congruence.
    rewrite lookup_union_r by exact Hnone. apply lookup_empty.
Qed.

Lemma client_config_entries_witness :
  ∃ chain,
    (OpenAIModerationChain.constructor
       (Some (configured {[ "apiKey" := VStr "other"; "timeout" := VNum 30 ]}))
       offline).1 = Returned chain ∧
    OpenAIModerationChain.openAIApiKey chain = Some "sk" ∧
    OpenAIModerationChain.clientConfig chain !! "apiKey" = Some (VStr "other") ∧
    OpenAIModerationChain.clientConfig chain !! "organization" = Some VUndefined.
Proof.
  eexists. split; [reflexivity|]. split; [reflexivity|].
  pose proof (client_config_entries
                (Some (configured {[ "apiKey" := VStr "other"; "timeout" := VNum 30 ]}))
                offline _ _ eq_refl eq_refl) as (Hpassed & _ & Horg & _).
  split.
  - apply Hpassed. reflexivity.
  - apply Horg. reflexivity.
Defined.

(** [OpenAIModerationChain._call], step by step. *)
Lemma chain_call_run create render (values : gmap string Value)
    (self : OpenAIModerationChain.t) (w : World) :
  OpenAIModerationChain._call create render values (self, w) =
  (match
     create (OpenAIModerationChain.client self)
       {[ "input" := default VUndefined (values !! OpenAIModerationChain.inputKey self) ]}
   with
   | RejectedWith reason => Threw (rethrown render reason)
   | Fulfilled moderation =>
       match ModerationCreateResponse.results moderation with
       | [] => Threw cannot_read
       | first :: _ =>
           if Moderation.flagged first
           then
             if OpenAIModerationChain.throwError self
             then Threw (Error OpenAIModerationChain.errorStr None)
             else Returned
                    {[ OpenAIModerationChain.outputKey self :=
                         VStr OpenAIModerationChain.errorStr ]}
           else Returned
                  {[ OpenAIModerationChain.outputKey self :=
                       default VUndefined
                         (values !! OpenAIModerationChain.inputKey self) ]}
       end
   end,
   (self, w)).
Proof.
  cbv beta iota zeta delta
    [OpenAIModerationChain._call OpenAIModerationChain.caller_call
     OpenAIModerationChain.moderate rethrown this gets throw
     mbind mret eff_bind eff_ret fst snd].
  destruct (create _ _) as [moderation|[e|v]]; [|reflexivity|reflexivity].
  destruct (ModerationCreateResponse.results moderation) as [|first rest];
    [reflexivity|].
  change ((first :: rest) !! 0) with (Some first). cbv beta iota.
  destruct (Moderation.flagged first); [|reflexivity].
  now destruct (OpenAIModerationChain.throwError self).
Qed.

(** X14: when the first verdict of the answer is not flagged, [_call] returns
    the object whose only entry is the output key with the value [values]
    holds under the input key (undefined when it holds none); the chain and
    the world are left as they were, and the other verdicts are not looked
    at. *)
Theorem clean_input_is_handed_back create render (values : gmap string Value)
    (self : OpenAIModerationChain.t) (w : World)
    (moderation : ModerationCreateResponse.t) (first : Moderation.t)
    (rest : list Moderation.t) :
  create (OpenAIModerationChain.client self)
    {[ "input" := default VUndefined (values !! OpenAIModerationChain.inputKey self) ]} =
    Fulfilled moderation →
  ModerationCreateResponse.results moderation = first :: rest →
  Moderation.flagged first = false →
  OpenAIModerationChain._call create render values (self, w) =
  (Returned
     {[ OpenAIModerationChain.outputKey self :=
          default VUndefined (values !! OpenAIModerationChain.inputKey self) ]},
   (self, w)).
Proof. intros Hc Hr Hf. now rewrite chain_call_run, Hc, Hr, Hf. Qed.

Lemma clean_input_is_handed_back_witness :
  OpenAIModerationChain._call (always (Fulfilled (verdicts [false; true]))) as_object
    hello (moderator true, offline) =
  (Returned {[ "output" := VStr "hello" ]}, (moderator true, offline)).
Proof.
  apply (clean_input_is_handed_back (always (Fulfilled (verdicts [false; true])))
           as_object hello (moderator true) offline (verdicts [false; true])
           (verdict false) [verdict true]); reflexivity.
Defined.

(** X15: when the first verdict of the answer is flagged, [_call] throws the
    policy error if the chain has [throwError] set, and otherwise returns the
    object whose only entry is the output key with the policy sentence in
    place of the input. *)
Theorem flagged_input_is_replaced create render (values : gmap string Value)
    (self : OpenAIModerationChain.t) (w : World)
    (moderation : ModerationCreateResponse.t) (first : Moderation.t)
    (rest : list Moderation.t) :
  create (OpenAIModerationChain.client self)
    {[ "input" := default VUndefined (values !! OpenAIModerationChain.inputKey self) ]} =
    Fulfilled moderation →
  ModerationCreateResponse.results moderation = first :: rest →
  Moderation.flagged first = true →
  OpenAIModerationChain._call create render values (self, w) =
  (if OpenAIModerationChain.throwError self
   then Threw (Error "Text was found that violates OpenAI's content policy." None)
   else Returned
          {[ OpenAIModerationChain.outputKey self :=
               VStr "Text was found that violates OpenAI's content policy." ]},
   (self, w)).
Proof. intros Hc Hr Hf. now rewrite chain_call_run, Hc, Hr, Hf. Qed.

Lemma flagged_input_is_replaced_witness :
  OpenAIModerationChain._call (always (Fulfilled (verdicts [true]))) as_object
    hello (moderator false, offline) =
  (Returned
     {[ "output" := VStr "Text was found that violates OpenAI's content policy." ]},
   (moderator false, offline)).
Proof.
  apply (flagged_input_is_replaced (always (Fulfilled (verdicts [true])))
           as_object hello (moderator false) offline (verdicts [true])
           (verdict true) []); reflexivity.
Defined.

(** X16: when the moderation request is rejected, [_call] throws and leaves
    the chain and the world as they were: an error object is rethrown as it
    is, a string is wrapped into an error with that string as message, and
    [undefined] into an error with an empty message. *)
Theorem rejected_moderation_request create render (values : gmap string Value)
    (self : OpenAIModerationChain.t) (w : World) (reason : Reason) :
  create (OpenAIModerationChain.client self)
    {[ "input" := default VUndefined (values !! OpenAIModerationChain.inputKey self) ]} =
    RejectedWith reason →
  OpenAIModerationChain._call create render values (self, w) =
  (Threw
     match reason with
     | AnError e => e
     | AValue (VStr message) => Error message None
     | AValue VUndefined => Error EmptyString None
     | AValue v => Error (render v) None
     end,
   (self, w)).
Proof.
  intros Hc. rewrite chain_call_run, Hc.
  destruct reason as [e|[]]; reflexivity.
Qed.

Lemma rejected_moderation_request_witness :
  OpenAIModerationChain._call (always (RejectedWith (AValue (VStr "rate limited"))))
    as_object hello (moderator false, offline) =
  (Threw (Error "rate limited" None), (moderator false, offline)).
Proof.
  apply (rejected_moderation_request
           (always (RejectedWith (AValue (VStr "rate limited")))) as_object hello
           (moderator false) offline (AValue (VStr "rate limited"))).
  reflexivity.
Defined.

(** X17: when the answer has no verdict at all, reading [flagged] of the
    missing first one fails: [_call] throws a [TypeError]. *)
Theorem answer_without_verdict create render (values : gmap string Value)
    (self : OpenAIModerationChain.t) (w : World)
    (moderation : ModerationCreateResponse.t) :
  create (OpenAIModerationChain.client self)
    {[ "input" := default VUndefined (values !! OpenAIModerationChain.inputKey self) ]} =
    Fulfilled moderation →
  ModerationCreateResponse.results moderation = [] →
  ∃ msg,
    OpenAIModerationChain._call create render values (self, w) =
    (Threw (TypeError msg), (self, w)).
Proof.
  intros Hc Hr. exists "Cannot read properties of undefined or null".
  now rewrite chain_call_run, Hc, Hr.
Qed.

Lemma answer_without_verdict_witness :
  ∃ msg,
    OpenAIModerationChain._call (always (Fulfilled (verdicts []))) as_object
      hello (moderator false, offline) =
    (Threw (TypeError msg), (moderator false, offline)).
Proof.
  apply (answer_without_verdict (always (Fulfilled (verdicts []))) as_object hello
           (moderator false) offline (verdicts [])); reflexivity.
Defined.

(** ** [loadFromFile] *)

(** X18: when the import and the read succeed and the loader returns a
    promise, [loadFromFile] settles as that promise does, fulfilled or
    rejected, and logs nothing: a rejection of the loader's promise is not
    replaced by the could-not-load error.  The loader is given the text read,
    the same [uri], and [values], or the empty object when there are none. *)
Theorem load_settles_as_loader {T} (uri : string) (loader : Load.FileLoader T)
    (values : option (gmap string Value)) (h : Load.Host)
    (text : string) (p : Settled T) :
  Load.import_fs h = None →
  Load.readFile h uri = inr text →
  loader text uri (default ∅ values) = Load.Promised p →
  Load.loadFromFile uri loader values h = (p, h).
Proof.
  intros Hi Hr Hl. unfold Load.loadFromFile. now rewrite Hi, Hr, Hl.
Qed.

Lemma load_settles_as_loader_witness :
  Load.loadFromFile "empty.json" length_loader None
    (one_file "empty.json" EmptyString) =
  (RejectedWith (AnError (Error "empty file" None)),
   one_file "empty.json" EmptyString).
Proof.
  apply (load_settles_as_loader "empty.json" length_loader None
           (one_file "empty.json" EmptyString) EmptyString); reflexivity.
Defined.

(** X19: when the import fails, the read fails, or the loader throws before
    returning a promise, [loadFromFile] is rejected with the error
    "Could not load file at " followed by [uri]; what was caught goes to
    [console.error] and is not part of that error. *)
Theorem load_failure_is_replaced {T} (uri : string) (loader : Load.FileLoader T)
    (values : option (gmap string Value)) (h : Load.Host) (e : Reason) :
  caught uri loader values h e →
  Load.loadFromFile uri loader values h =
  (RejectedWith (AnError (Error ("Could not load file at " +:+ uri) None)),
   {| Load.import_fs := Load.import_fs h;
      Load.readFile := Load.readFile h;
      Load.console := e :: Load.console h |}).
Proof.
  change {| Load.import_fs := Load.import_fs h; Load.readFile := Load.readFile h;
            Load.console := e :: Load.console h |}
    with (Load.console_error e h).
  unfold Load.loadFromFile.
  intros [Hi | Hi Hr | text Hi Hr Hl]; rewrite Hi; [reflexivity|..];
    rewrite Hr; [reflexivity|]. now rewrite Hl.
Qed.

Lemma load_failure_is_replaced_witness :
  (Load.loadFromFile "missing.json" length_loader None
     (one_file "empty.json" EmptyString)).1 =
  RejectedWith (AnError (Error "Could not load file at missing.json" None)).
Proof.
  rewrite (load_failure_is_replaced "missing.json" length_loader None
             (one_file "empty.json" EmptyString)
             (AnError (Error "ENOENT: no such file or directory" None))).
  - reflexivity.
  - apply read_failed; reflexivity.
Defined.
